(** * awilix-benchmark: the lifetime benchmark driver

    A shallow embedding of [benchmark_awilix_lifetimes.js]: the test-matrix
    expansion, the synthetic service graph, the container it is registered
    in, the timed request loop with its in-flight map and the microtask
    queue the loop's promises run on.

    Conventions.
    - Counters are JavaScript numbers holding small non-negative integers;
      they are [nat] here (exact below 2^53).
    - [new Date()] readings are integer milliseconds, [Z].  The source
      divides differences by 1000 to get seconds; the embedding keeps the
      milliseconds, and compares [elapsed > 1000 * numberSeconds] where
      the source compares [elapsed / 1000 > numberSeconds].
    - [Math.random] and the clock are oracles: each loop iteration is fed
      one [Tick] holding the values read during that iteration. *)

From Stdlib Require Import List Arith ZArith Lia Bool PeanoNat Finite.
Import ListNotations.

Set Implicit Arguments.

(** ** Outcomes *)

Inductive outcome (A : Type) : Type :=
| Done (a : A)      (* the code ran to its end *)
| Threw             (* an exception escaped *)
| Unfinished.       (* the oracle (or a recursion bound) ran out first *)

Arguments Threw {A}.
Arguments Unfinished {A}.

Definition outcome_map {A B : Type} (f : A -> B) (o : outcome A) : outcome B :=
  match o with
  | Done a => Done (f a)
  | Threw => Threw
  | Unfinished => Unfinished
  end.

(** ** JavaScript [Map]: insertion-ordered, keys unique *)

Module JsMap.
Section Ops.
Variables K V : Type.
Variable eqb : K -> K -> bool.

Definition t := list (K * V).

Fixpoint get (k : K) (m : t) : option V :=
  match m with
  | [] => None
  | (k', v) :: m' => if eqb k k' then Some v else get k m'
  end.

(* [set] on a present key keeps the entry's position *)
Fixpoint set (k : K) (v : V) (m : t) : t :=
  match m with
  | [] => [(k, v)]
  | (k', v') :: m' => if eqb k k' then (k, v) :: m' else (k', v') :: set k v m'
  end.

(* the method [Map.prototype.delete], when it is called *)
Fixpoint delete (k : K) (m : t) : t :=
  match m with
  | [] => []
  | (k', v') :: m' => if eqb k k' then m' else (k', v') :: delete k m'
  end.

Definition size (m : t) : nat := length m.

Definition keys (m : t) : list K := map fst m.

(* [m.entries().next()]: the iterator result object
   [{ value: [key, value], done: false }], or [{ value: undefined, done: true }] *)
Record IteratorResult := { value : option (K * V); done : bool }.

Definition entries_next (m : t) : IteratorResult :=
  match m with
  | [] => {| value := None; done := true |}
  | e :: _ => {| value := Some e; done := false |}
  end.
End Ops.
End JsMap.

(** ** The test matrix (lines 17-39) *)

Inductive Lifetime := TRANSIENT | SCOPED | SINGLETON.

Definition Lifetime_eqb (a b : Lifetime) : bool :=
  match a, b with
  | TRANSIENT, TRANSIENT | SCOPED, SCOPED | SINGLETON, SINGLETON => true
  | _, _ => false
  end.

Record TestCase := {
  numberServices : nat;
  maxInFlight : nat;
  lifetimeType : Lifetime;
  cacheBypass : bool;
  numberSeconds : Z
}.

Record TestMatrix := {
  mx_numberServices : list nat;
  mx_maxInFlight : list nat;
  mx_lifetimeType : list Lifetime;
  mx_cacheBypass : list bool
}.

Definition testMatrix : TestMatrix := {|
  mx_numberServices := [50; 100; 500; 1000];
  mx_maxInFlight := [1000];
  mx_lifetimeType := [TRANSIENT; SCOPED; SINGLETON];
  mx_cacheBypass := [true; false]
|}.

Definition secondsPerTest : Z := 3.

(* A JavaScript value as far as [Array.prototype.flat] tells them apart:
   an array, or anything else (here: a test-case object). *)
#[warnings="-register-all"]
Inductive jsval :=
| Obj (c : TestCase)
| Arr (elems : list jsval).

(* [arr.flat(depth)] *)
Fixpoint flat (depth : nat) (arr : list jsval) : list jsval :=
  flat_map (fun v =>
    match v, depth with
    | Arr elems, S d => flat d elems
    | _, _ => [v]
    end) arr.

Definition nestedCases (m : TestMatrix) : list jsval :=
  map (fun numberServices =>
    Arr (map (fun maxInFlight =>
      Arr (map (fun lifetimeType =>
        Arr (map (fun cacheBypass =>
          Obj {| numberServices := numberServices;
                 maxInFlight := maxInFlight;
                 lifetimeType := lifetimeType;
                 cacheBypass := cacheBypass;
                 numberSeconds := secondsPerTest |})
          (mx_cacheBypass m)))
        (mx_lifetimeType m)))
      (mx_maxInFlight m)))
    (mx_numberServices m).

Definition testCasesOf (m : TestMatrix) : list jsval := flat 4 (nestedCases m).

Definition testCases : list jsval := testCasesOf testMatrix.

(** ** The synthetic service graph (lines 41-44, 158-196) *)

(* Registration keys.  The source builds the strings [mockRepository<i>],
   [mockService<i>] and [logger], which are pairwise distinct; a key is
   kept as the template it came from and its index. *)
Inductive name :=
| mockRepository (index : nat)
| mockService (index : nat)
| logger.

Definition name_eqb (a b : name) : bool :=
  match a, b with
  | mockRepository i, mockRepository j => Nat.eqb i j
  | mockService i, mockService j => Nat.eqb i j
  | logger, logger => true
  | _, _ => false
  end.

(* Objects of the three classes, with the fields their constructors set. *)
Inductive instance :=
| MockLogger (id : nat)
| MockRepositoryLayer (lg : instance)
| MockServiceLayer (lg : instance) (repo : instance).

(* Global variables of the script. *)
Record Globals := {
  totalDiInitializations : nat;
  mockLoggerIdCounter : nat;
  numberLogs : nat
}.

(** ** The container *)

(* The three factory closures handed to [asFunction]. *)
Inductive factory :=
| mockRepositoryFn
| mockServiceFn (mockRepositoryName : name)
| loggerFn.

Record Resolver := { fn : factory; lifetime : Lifetime }.

Definition asFunction (f : factory) (lt : Lifetime) : Resolver :=
  {| fn := f; lifetime := lt |}.

Record CacheEntry := { ce_resolver : Resolver; ce_value : instance }.

Definition Cache := JsMap.t name CacheEntry.

(* The container a request resolves from: the run's root container, or
   the child scope created for the request. *)
Inductive ContainerRef := RootContainer | ChildScope.

(* The store resolution reads and writes.  Only the scope made for the
   current request can be reached by the driver, so one slot holds it. *)
Record World := {
  globals : Globals;
  rootCache : Cache;
  scopeCache : Cache
}.

(** ** A state-and-exception monad over [World] *)

Definition M (A : Type) : Type := World -> outcome (A * World).

Definition ret {A : Type} (a : A) : M A := fun w => Done (a, w).

Definition bind {A B : Type} (m : M A) (k : A -> M B) : M B :=
  fun w =>
    match m w with
    | Done (a, w') => k a w'
    | Threw => Threw
    | Unfinished => Unfinished
    end.

Definition throw {A : Type} : M A := fun _ => Threw.

Declare Scope di_scope.
Delimit Scope di_scope with di.
Notation "x <- m ;; k" := (bind m (fun x => k))
  (at level 61, m at next level, right associativity) : di_scope.
Notation "m ;; k" := (bind m (fun _ => k))
  (at level 61, right associativity) : di_scope.
Open Scope di_scope.

Definition modifyGlobals (f : Globals -> Globals) : M unit :=
  fun w => Done (tt, {| globals := f (globals w);
                        rootCache := rootCache w;
                        scopeCache := scopeCache w |}).

(* [totalDiInitializations++] *)
Definition countInitialization : M unit :=
  modifyGlobals (fun g =>
    {| totalDiInitializations := S (totalDiInitializations g);
       mockLoggerIdCounter := mockLoggerIdCounter g;
       numberLogs := numberLogs g |}).

(* [mockLoggerIdCounter++], as an expression: the value before the increment *)
Definition nextLoggerId : M nat :=
  fun w =>
    let g := globals w in
    Done (mockLoggerIdCounter g,
          {| globals := {| totalDiInitializations := totalDiInitializations g;
                           mockLoggerIdCounter := S (mockLoggerIdCounter g);
                           numberLogs := numberLogs g |};
             rootCache := rootCache w;
             scopeCache := scopeCache w |}).

(* [numberLogs++] *)
Definition countLog : M unit :=
  modifyGlobals (fun g =>
    {| totalDiInitializations := totalDiInitializations g;
       mockLoggerIdCounter := mockLoggerIdCounter g;
       numberLogs := S (numberLogs g) |}).

Definition cacheOf (c : ContainerRef) (w : World) : Cache :=
  match c with
  | RootContainer => rootCache w
  | ChildScope => scopeCache w
  end.

Definition getCache (c : ContainerRef) : M Cache :=
  fun w => Done (cacheOf c w, w).

Definition cacheSet (c : ContainerRef) (nm : name) (e : CacheEntry) : M unit :=
  fun w =>
    match c with
    | RootContainer =>
        Done (tt, {| globals := globals w;
                     rootCache := JsMap.set name_eqb nm e (rootCache w);
                     scopeCache := scopeCache w |})
    | ChildScope =>
        Done (tt, {| globals := globals w;
                     rootCache := rootCache w;
                     scopeCache := JsMap.set name_eqb nm e (scopeCache w) |})
    end.

(* Running a factory: the class constructors of lines 159-196.  [dep] is
   what reading a property of the injected [opts] does: with
   [InjectionMode.PROXY] every read resolves the entry of that name. *)
Definition construct (dep : name -> M instance) (f : factory) : M instance :=
  match f with
  | loggerFn =>
      countInitialization ;;
      id <- nextLoggerId ;;
      ret (MockLogger id)
  | mockRepositoryFn =>
      countInitialization ;;
      l <- dep logger ;;
      ret (MockRepositoryLayer l)
  | mockServiceFn mockRepositoryName =>
      countInitialization ;;
      l <- dep logger ;;
      r <- dep mockRepositoryName ;;
      ret (MockServiceLayer l r)
  end.

Definition Registrations := JsMap.t name Resolver.

(** Modelled from the spec: the container's [resolve], [createScope] and
    [cache] belong to the awilix package, which this repository only
    calls.  The definitions follow the resolver contract of the
    specification: an entry is constructed on first resolution and then
    served from a cache according to its lifetime (TRANSIENT: never
    cached; SCOPED: cached in the container the resolution started from;
    SINGLETON: cached in the root container for the container's whole
    life); a child scope shares the root's singletons and has a cache of
    its own, empty when the scope is created; resolving a name that was
    never registered throws.  [depth] bounds the nesting of resolutions. *)
Fixpoint resolve (regs : Registrations) (depth : nat) (target : ContainerRef)
    (nm : name) : M instance :=
  match depth with
  | O => fun _ => Unfinished
  | S depth' =>
      match JsMap.get name_eqb nm regs with
      | None => throw
      | Some r =>
          let cached (holder : ContainerRef) : M instance :=
            c <- getCache holder ;;
            match JsMap.get name_eqb nm c with
            | Some e => ret (ce_value e)
            | None =>
                v <- construct (resolve regs depth' target) (fn r) ;;
                cacheSet holder nm {| ce_resolver := r; ce_value := v |} ;;
                ret v
            end in
          match lifetime r with
          | TRANSIENT => construct (resolve regs depth' target) (fn r)
          | SCOPED => cached target
          | SINGLETON => cached RootContainer
          end
      end
  end.

(* a service reads the logger and its repository, which reads the logger *)
Definition resolutionDepth : nat := 3.

(** Modelled from the spec: [createScope], also of the awilix package.  The
    child scope has a cache of its own, with nothing in it yet, and the
    root's cache is the one its singletons live in. *)
Definition createScope (w : World) : World :=
  {| globals := globals w; rootCache := rootCache w; scopeCache := [] |}.

(** ** generateAwilixConfig (lines 198-239) *)

Record AwilixConfig := {
  container : Registrations;
  mockServiceNames : list name
}.

Definition generateAwilixConfig (numberOfServices : nat) (lt : Lifetime)
    : AwilixConfig :=
  let indices := seq 0 numberOfServices in
  let mockRepositories :=
    map (fun index => (mockRepository index, asFunction mockRepositoryFn lt))
        indices in
  let mockServices :=
    map (fun index =>
           (mockService index, asFunction (mockServiceFn (mockRepository index)) lt))
        indices in
  {| container :=
       mockRepositories ++ mockServices ++ [(logger, asFunction loggerFn lt)];
     mockServiceNames := JsMap.keys mockServices |}.

(** ** Promises and the microtask queue *)

Inductive PromiseState := Pending | Fulfilled.

(* The two kinds of job a request puts on the microtask queue.  [frame]
   names the call of [runTest] whose local variables the job's closure
   captured; [handle] is the promise stored in the in-flight map.
   - [ResumeMockAction]: the service's [mockAction] continues after
     [await this.mockRepository.mockAction(x)] (the repository's promise is
     already fulfilled when it is awaited) and returns, which fulfils the
     service's promise and schedules the [then] callback;
   - [ThenCallback]: the arrow function of lines 112-115 runs, and the
     promise [then] returned is fulfilled. *)
Inductive job :=
| ResumeMockAction (frame handle : nat)
| ThenCallback (frame handle : nat).

Definition spawned (j : job) : list job :=
  match j with
  | ResumeMockAction f p => [ThenCallback f p]
  | ThenCallback _ _ => []
  end.

(** ** The request driver (lines 64-143) *)

Record RunState := {
  world : World;
  microtasks : list job;
  promises : list PromiseState;            (* indexed by handle *)
  unresolvedPromises : JsMap.t nat nat;    (* request number -> handle *)
  resolvedResults : nat;
  resolveCacheHits : nat;
  maxInFlightHit : bool;
  requestNumber : nat;
  msSpentResolving : Z
}.

Definition with_microtasks (q : list job) (s : RunState) : RunState :=
  {| world := world s; microtasks := q; promises := promises s;
     unresolvedPromises := unresolvedPromises s;
     resolvedResults := resolvedResults s;
     resolveCacheHits := resolveCacheHits s;
     maxInFlightHit := maxInFlightHit s;
     requestNumber := requestNumber s;
     msSpentResolving := msSpentResolving s |}.

Fixpoint fulfil (handle : nat) (ps : list PromiseState) : list PromiseState :=
  match ps, handle with
  | [], _ => []
  | _ :: ps', O => Fulfilled :: ps'
  | p :: ps', S h => p :: fulfil h ps'
  end.

Definition promiseState (handle : nat) (ps : list PromiseState)
    : option PromiseState :=
  nth_error ps handle.

(* The callback of lines 112-115, run in the frame that created it:
     resolvedResults++
     unresolvedPromises.delete[requestNumber]
   The second statement reads a property of the function object
   [unresolvedPromises.delete] (named by the current value of
   [requestNumber]); it calls nothing, so the map is as it was.  After
   the callback the promise returned by [then] is fulfilled. *)
Definition thenCallback (handle : nat) (s : RunState) : RunState :=
  {| world := world s; microtasks := microtasks s;
     promises := fulfil handle (promises s);
     unresolvedPromises := unresolvedPromises s;
     resolvedResults := S (resolvedResults s);
     resolveCacheHits := resolveCacheHits s;
     maxInFlightHit := maxInFlightHit s;
     requestNumber := requestNumber s;
     msSpentResolving := msSpentResolving s |}.

(* One job, seen from the call of [runTest] numbered [frame].  A callback
   left over from an earlier call updates that call's variables, which
   are out of reach here. *)
Definition exec_job (frame : nat) (j : job) (s : RunState) : RunState :=
  let s := with_microtasks (microtasks s ++ spawned j) s in
  match j with
  | ResumeMockAction _ _ => s
  | ThenCallback f p => if Nat.eqb f frame then thenCallback p s else s
  end.

Fixpoint runJobs (frame : nat) (n : nat) (s : RunState) : RunState :=
  match n with
  | O => s
  | S n' =>
      match microtasks s with
      | [] => s
      | j :: q => runJobs frame n' (exec_job frame j (with_microtasks q s))
      end
  end.

(* [await v] where [v] is an object without a [then] method: the rest of
   the function is queued behind the jobs already waiting, so exactly
   those run (what they enqueue comes after) and the function goes on.
   Nothing about [v] is consulted. *)
Definition awaitValue (frame : nat) (v : JsMap.IteratorResult nat nat)
    (s : RunState) : RunState :=
  runJobs frame (length (microtasks s)) s.

(* What one iteration reads from the outside. *)
Record Tick := {
  randomServiceIndex : nat;   (* Math.floor(Math.random() * mockServiceNames.length) *)
  resolveStartTime : Z;       (* new Date(), line 94 *)
  resolveEndTime : Z;         (* new Date(), line 109 *)
  checkTime : Z               (* new Date(), line 126 *)
}.

Record RunOracle := {
  startTime : Z;              (* new Date(), line 75 *)
  ticks : list Tick;
  endTime : Z                 (* new Date(), line 130 *)
}.

(* lines 96-107; the flag tells whether [resolveCacheHits++] ran *)
Definition resolveService (regs : Registrations) (bypass : bool)
    (targetContainer : ContainerRef) (randomServiceName : name)
    : M (instance * bool) :=
  if bypass then
    c <- getCache targetContainer ;;
    match JsMap.get name_eqb randomServiceName c with
    | Some cacheResult => ret (ce_value cacheResult, true)
    | None =>
        v <- resolve regs resolutionDepth targetContainer randomServiceName ;;
        ret (v, false)
    end
  else
    v <- resolve regs resolutionDepth targetContainer randomServiceName ;;
    ret (v, false).

(* [logger.doLog(...)] *)
Definition doLog (l : instance) : M unit :=
  match l with
  | MockLogger _ => countLog
  | _ => throw
  end.

(* [MockRepositoryLayer.mockAction]: runs to its end when called *)
Definition repositoryMockAction (r : instance) : M unit :=
  match r with
  | MockRepositoryLayer l => doLog l
  | _ => throw
  end.

(* [MockServiceLayer.mockAction] up to its [await].  The branches that
   throw, here and above, stand for a call on an object of another class;
   resolution only hands out objects built by the factories, so they are
   not reached ([iteration_RunInv]). *)
Definition serviceMockAction (svc : instance) : M unit :=
  match svc with
  | MockServiceLayer l r => doLog l ;; repositoryMockAction r
  | _ => throw
  end.

(* lines 112-117: the action is started, its continuation queued, and the
   promise returned by [then] recorded under the request number *)
Definition issueAction (frame : nat) (randomService : instance)
    (s : RunState) : outcome RunState :=
  match serviceMockAction randomService (world s) with
  | Done (_, w) =>
      let handle := length (promises s) in
      Done {| world := w;
              microtasks := microtasks s ++ [ResumeMockAction frame handle];
              promises := promises s ++ [Pending];
              unresolvedPromises :=
                JsMap.set Nat.eqb (requestNumber s) handle (unresolvedPromises s);
              resolvedResults := resolvedResults s;
              resolveCacheHits := resolveCacheHits s;
              maxInFlightHit := maxInFlightHit s;
              requestNumber := requestNumber s;
              msSpentResolving := msSpentResolving s |}
  | Threw => Threw
  | Unfinished => Unfinished
  end.

(* lines 119-124 *)
Definition backpressure (frame : nat) (opts : TestCase) (s : RunState)
    : RunState :=
  if maxInFlight opts <=? JsMap.size (unresolvedPromises s) then
    let s1 :=
      {| world := world s; microtasks := microtasks s; promises := promises s;
         unresolvedPromises := unresolvedPromises s;
         resolvedResults := resolvedResults s;
         resolveCacheHits := resolveCacheHits s;
         maxInFlightHit := true;
         requestNumber := requestNumber s;
         msSpentResolving := msSpentResolving s |} in
    let oldestEntry := JsMap.entries_next (unresolvedPromises s1) in
    awaitValue frame oldestEntry s1
  else s.

(* line 90: the container this request resolves from *)
Definition targetContainer (lt : Lifetime) (w : World) : ContainerRef * World :=
  if Lifetime_eqb lt SCOPED then (ChildScope, createScope w)
  else (RootContainer, w).

(* lines 87-110 *)
Definition resolveRequest (opts : TestCase) (cfg : AwilixConfig) (tk : Tick)
    (s : RunState) : outcome (instance * RunState) :=
  let n := S (requestNumber s) in
  let (target, w) := targetContainer (lifetimeType opts) (world s) in
  match nth_error (mockServiceNames cfg) (randomServiceIndex tk) with
  | None => Threw     (* the name is [undefined]; the container rejects it *)
  | Some randomServiceName =>
      match resolveService (container cfg) (cacheBypass opts) target
                           randomServiceName w with
      | Done ((randomService, hit), w') =>
          Done (randomService,
                {| world := w'; microtasks := microtasks s;
                   promises := promises s;
                   unresolvedPromises := unresolvedPromises s;
                   resolvedResults := resolvedResults s;
                   resolveCacheHits :=
                     if hit then S (resolveCacheHits s) else resolveCacheHits s;
                   maxInFlightHit := maxInFlightHit s;
                   requestNumber := n;
                   msSpentResolving :=
                     (msSpentResolving s
                      + (resolveEndTime tk - resolveStartTime tk))%Z |})
      | Threw => Threw
      | Unfinished => Unfinished
      end
  end.

(* lines 126-127: [secondsElapsed > numberSeconds], on milliseconds *)
Definition stops (opts : TestCase) (start : Z) (tk : Tick) : bool :=
  (1000 * numberSeconds opts <? checkTime tk - start)%Z.

(* One pass through the body of [while (true)]; the flag is [break]. *)
Definition iteration (frame : nat) (opts : TestCase) (cfg : AwilixConfig)
    (start : Z) (tk : Tick) (s : RunState) : outcome (bool * RunState) :=
  match resolveRequest opts cfg tk s with
  | Done (randomService, s1) =>
      match issueAction frame randomService s1 with
      | Done s2 =>
          let s3 := backpressure frame opts s2 in
          Done (stops opts start tk, s3)
      | Threw => Threw
      | Unfinished => Unfinished
      end
  | Threw => Threw
  | Unfinished => Unfinished
  end.

Fixpoint loop (frame : nat) (opts : TestCase) (cfg : AwilixConfig) (start : Z)
    (tks : list Tick) (s : RunState) : outcome RunState :=
  match tks with
  | [] => Unfinished
  | tk :: rest =>
      match iteration frame opts cfg start tk s with
      | Done (true, s') => Done s'
      | Done (false, s') => loop frame opts cfg start rest s'
      | Threw => Threw
      | Unfinished => Unfinished
      end
  end.

(* The states the loop is in at the end of each iteration it runs. *)
Fixpoint statesVisited (frame : nat) (opts : TestCase) (cfg : AwilixConfig)
    (start : Z) (tks : list Tick) (s : RunState) : list RunState :=
  match tks with
  | [] => []
  | tk :: rest =>
      match iteration frame opts cfg start tk s with
      | Done (stop, s') =>
          s' :: (if stop then [] else statesVisited frame opts cfg start rest s')
      | _ => []
      end
  end.

Module RunResult.
Record t := {
  maxInFlightHit : bool;
  requestNumber : nat;
  resolveCacheHits : nat;
  numberLogs : nat;
  resolvedResults : nat;
  totalSeconds : Z;            (* kept in ms: the source's number is this / 1000 *)
  totalSecondsResolving : Z;   (* kept in ms, likewise *)
  totalDiInitializations : nat
}.
End RunResult.

(* What one call of [runTest] finds and leaves behind. *)
Record Ambient := {
  amb_globals : Globals;
  amb_microtasks : list job
}.

(* lines 82-84 *)
Definition resetGlobals (g : Globals) : Globals :=
  {| totalDiInitializations := 0;
     mockLoggerIdCounter := mockLoggerIdCounter g;
     numberLogs := 0 |}.

(* lines 73-84: the state the loop starts in *)
Definition initialState (a : Ambient) : RunState :=
  {| world := {| globals := resetGlobals (amb_globals a);
                 rootCache := [];
                 scopeCache := [] |};
     microtasks := amb_microtasks a;
     promises := [];
     unresolvedPromises := [];
     resolvedResults := 0;
     resolveCacheHits := 0;
     maxInFlightHit := false;
     requestNumber := 0;
     msSpentResolving := 0 |}.

(* lines 129-142 *)
Definition report (o : RunOracle) (s : RunState) : RunResult.t :=
  {| RunResult.maxInFlightHit := maxInFlightHit s;
     RunResult.requestNumber := requestNumber s;
     RunResult.resolveCacheHits := resolveCacheHits s;
     RunResult.numberLogs := numberLogs (globals (world s));
     RunResult.resolvedResults := resolvedResults s;
     RunResult.totalSeconds := (endTime o - startTime o)%Z;
     RunResult.totalSecondsResolving := msSpentResolving s;
     RunResult.totalDiInitializations :=
       totalDiInitializations (globals (world s)) |}.

Definition runTest (frame : nat) (opts : TestCase) (o : RunOracle) (a : Ambient)
    : outcome (RunResult.t * Ambient) :=
  let cfg := generateAwilixConfig (numberServices opts) (lifetimeType opts) in
  match loop frame opts cfg (startTime o) (ticks o) (initialState a) with
  | Done s =>
      Done (report o s,
            {| amb_globals := globals (world s);
               amb_microtasks := microtasks s |})
  | Threw => Threw
  | Unfinished => Unfinished
  end.

(** ** main (lines 46-62) *)

(* [await runTest(testCase)] in [main]: the jobs waiting when [runTest]
   returns run before [main] goes on; they belong to finished calls. *)
Definition awaitRun (a : Ambient) : Ambient :=
  {| amb_globals := amb_globals a;
     amb_microtasks := flat_map spawned (amb_microtasks a) |}.

(* The loop of [main] over the expanded cases; [frame] counts the calls
   of [runTest].  An element of [testCases] that is still an array has
   none of the fields [runTest] reads: its container gets no service and
   the first resolution, of the name [undefined], throws. *)
Fixpoint runCases (frame : nat) (cases : list jsval) (oracles : list RunOracle)
    (a : Ambient) : outcome (list (TestCase * RunResult.t) * Ambient) :=
  match cases with
  | [] => Done ([], a)
  | Arr _ :: _ => Threw
  | Obj testCase :: cases' =>
      match oracles with
      | [] => Unfinished
      | o :: oracles' =>
          match runTest frame testCase o a with
          | Done (result, a') =>
              match runCases (S frame) cases' oracles' (awaitRun a') with
              | Done (results, a'') => Done ((testCase, result) :: results, a'')
              | Threw => Threw
              | Unfinished => Unfinished
              end
          | Threw => Threw
          | Unfinished => Unfinished
          end
      end
  end.

(* The value [main] hands to [writeFileSync] (as [JSON.stringify] of it). *)
Definition main (m : TestMatrix) (oracles : list RunOracle) (a : Ambient)
    : outcome (list (TestCase * RunResult.t)) :=
  outcome_map fst (runCases 0 (testCasesOf m) oracles a).

(** * Vocabulary of the properties *)

Unset Implicit Arguments.

(** Oracles, invariants, the spec-side product and the concrete inputs the
    theorems below are stated with. *)

(* [di] constructions more, [ids] logger ids handed out *)
Definition bumpGlobals (di ids : nat) (g : Globals) : Globals :=
  {| totalDiInitializations := di + totalDiInitializations g;
     mockLoggerIdCounter := ids + mockLoggerIdCounter g;
     numberLogs := numberLogs g |}.

(* what [generateAwilixConfig] registers: the logger, and a repository
   and a service for each index below [N], all with lifetime [lt] *)
Record registered (regs : Registrations) (lt : Lifetime) (N : nat) : Prop := {
  reg_logger :
    JsMap.get name_eqb logger regs = Some (asFunction loggerFn lt);
  reg_repository : forall i, i < N ->
    JsMap.get name_eqb (mockRepository i) regs
    = Some (asFunction mockRepositoryFn lt);
  reg_service : forall i, i < N ->
    JsMap.get name_eqb (mockService i) regs
    = Some (asFunction (mockServiceFn (mockRepository i)) lt)
}.

(* the two [doLog] calls a request makes before its first [await] *)
Definition logTwice (w : World) : World :=
  {| globals :=
       {| totalDiInitializations := totalDiInitializations (globals w);
          mockLoggerIdCounter := mockLoggerIdCounter (globals w);
          numberLogs := S (S (numberLogs (globals w))) |};
     rootCache := rootCache w;
     scopeCache := scopeCache w |}.

(* the state at the backpressure check, the globals and caches being [w'] *)
Definition afterIssue (frame : nat) (tk : Tick) (hit : bool) (w' : World)
    (s : RunState) : RunState :=
  {| world := w';
     microtasks :=
       microtasks s ++ [ResumeMockAction frame (length (promises s))];
     promises := promises s ++ [Pending];
     unresolvedPromises :=
       JsMap.set Nat.eqb (S (requestNumber s)) (length (promises s))
                 (unresolvedPromises s);
     resolvedResults := resolvedResults s;
     resolveCacheHits :=
       if hit then S (resolveCacheHits s) else resolveCacheHits s;
     maxInFlightHit := maxInFlightHit s;
     requestNumber := S (requestNumber s);
     msSpentResolving :=
       (msSpentResolving s + (resolveEndTime tk - resolveStartTime tk))%Z |}.

(* a service object as the factories build it *)
Definition shapedService (v : instance) : Prop :=
  exists a b,
    v = MockServiceLayer (MockLogger a) (MockRepositoryLayer (MockLogger b)).

(* the number of different services among those chosen so far *)
Definition distinct (l : list nat) : nat := length (nodup Nat.eq_dec l).

(* Under SINGLETON the root cache holds the logger, and a service and its
   repository for each index chosen so far ([chosen], latest first);
   every construction so far made one of these entries. *)
Record singletonInv (chosen : list nat) (w : World) : Prop := {
  si_service : forall i,
    JsMap.get name_eqb (mockService i) (rootCache w) <> None <-> In i chosen;
  si_repository : forall i,
    JsMap.get name_eqb (mockRepository i) (rootCache w) <> None <-> In i chosen;
  si_logger :
    JsMap.get name_eqb logger (rootCache w) <> None <-> chosen <> [];
  si_count :
    totalDiInitializations (globals w)
    = 2 * distinct chosen + match chosen with [] => 0 | _ :: _ => 1 end;
  si_shape_service : forall i e,
    JsMap.get name_eqb (mockService i) (rootCache w) = Some e ->
    shapedService (ce_value e);
  si_shape_logger : forall e,
    JsMap.get name_eqb logger (rootCache w) = Some e ->
    exists a, ce_value e = MockLogger a
}.

(* the root container during a run, by lifetime: only SINGLETON entries
   are ever cached in it *)
Definition worldOk (lt : Lifetime) (chosen : list nat) (w : World) : Prop :=
  match lt with
  | SINGLETON => singletonInv chosen w
  | _ => rootCache w = []
  end.

(* a job made by the call of [runTest] numbered [frame] *)
Definition ownJob (frame : nat) (j : job) : bool :=
  match j with
  | ResumeMockAction f _ => Nat.eqb f frame
  | ThenCallback f _ => Nat.eqb f frame
  end.

(* jobs of this call of [runTest] still on the queue: one per request
   whose callback has not run *)
Definition pendingOwn (frame : nat) (q : list job) : nat :=
  length (filter (ownJob frame) q).

(* completions so far plus requests still to complete *)
Definition accounted (frame : nat) (s : RunState) : nat :=
  resolvedResults s + pendingOwn frame (microtasks s).

(* what a job leaves alone *)
Record sameFrame (s s' : RunState) : Prop := {
  sf_world : world s' = world s;
  sf_inflight : unresolvedPromises s' = unresolvedPromises s;
  sf_hits : resolveCacheHits s' = resolveCacheHits s;
  sf_requests : requestNumber s' = requestNumber s;
  sf_ms : msSpentResolving s' = msSpentResolving s;
  sf_promises : length (promises s') = length (promises s);
  sf_resolved : resolvedResults s <= resolvedResults s'
}.

(* the in-flight map after [n] requests: every request number issued so
   far, in order, each with the handle made for it *)
Definition inflight (n : nat) : JsMap.t nat nat :=
  map (fun k => (S k, k)) (seq 0 n).

(* the in-flight map and the promise store hold one entry per request *)
Record Bookkeeping (s : RunState) : Prop := {
  bk_inflight : unresolvedPromises s = inflight (requestNumber s);
  bk_promises : length (promises s) = requestNumber s
}.

(* the ticks the loop consumes: up to and including the first one whose
   clock reading is past the budget *)
Fixpoint executed (opts : TestCase) (start : Z) (tks : list Tick) : list Tick :=
  match tks with
  | [] => []
  | tk :: rest =>
      tk :: (if stops opts start tk then [] else executed opts start rest)
  end.

(* every index drawn is one [Math.floor(Math.random() * length)] can give,
   and the clock passes the budget at some tick *)
Fixpoint oracleOk (opts : TestCase) (start : Z) (tks : list Tick) : bool :=
  match tks with
  | [] => false
  | tk :: rest =>
      (randomServiceIndex tk <? numberServices opts)
      && (stops opts start tk || oracleOk opts start rest)
  end.

(* the services chosen by a list of ticks, latest first *)
Definition chosenBy (tks : list Tick) : list nat :=
  rev (map randomServiceIndex tks).

(* what holds at the end of every iteration of a run whose requests chose
   the services [chosen] (latest first) *)
Record RunInv (opts : TestCase) (chosen : list nat) (s : RunState) : Prop := {
  ri_world : worldOk (lifetimeType opts) chosen (world s);
  ri_requests : requestNumber s = length chosen;
  ri_logs : numberLogs (globals (world s)) = 2 * requestNumber s;
  ri_transient : lifetimeType opts = TRANSIENT ->
    totalDiInitializations (globals (world s)) = 4 * requestNumber s
    /\ resolveCacheHits s = 0;
  ri_scoped : lifetimeType opts = SCOPED ->
    totalDiInitializations (globals (world s)) = 3 * requestNumber s
    /\ resolveCacheHits s = 0
}.

(* the globals as the script declares them (lines 41-44), no job queued *)
Definition scriptStart : Ambient :=
  {| amb_globals := {| totalDiInitializations := 0;
                       mockLoggerIdCounter := 1;
                       numberLogs := 0 |};
     amb_microtasks := [] |}.

(* a tick whose three clock readings are all [t] *)
Definition tickAt (index : nat) (t : Z) : Tick :=
  {| randomServiceIndex := index;
     resolveStartTime := t; resolveEndTime := t; checkTime := t |}.

(* a run started at clock 0 and reported at 3001 ms *)
Definition oracleOf (tks : list Tick) : RunOracle :=
  {| startTime := 0; ticks := tks; endTime := 3001 |}.

(* cases of the script's own matrix *)
Definition caseOf (n : nat) (lt : Lifetime) (bypass : bool) : TestCase :=
  {| numberServices := n; maxInFlight := 1000; lifetimeType := lt;
     cacheBypass := bypass; numberSeconds := secondsPerTest |}.

Definition scopedCase : TestCase := caseOf 50 SCOPED true.

Definition transientCase : TestCase := caseOf 50 TRANSIENT false.

Definition singletonCase : TestCase := caseOf 50 SINGLETON false.

Definition singletonBypassCase : TestCase := caseOf 50 SINGLETON true.

(* three requests, for services 3, 3 and 8; the third ends the run *)
Definition threeRequests : RunOracle :=
  oracleOf [tickAt 3 1; tickAt 3 2; tickAt 8 3001].

(* one request, which ends the run *)
Definition oneRequest : RunOracle := oracleOf [tickAt 7 3001].

(* three requests, all for service 7 *)
Definition sameServiceThrice : RunOracle :=
  oracleOf [tickAt 7 1; tickAt 7 2; tickAt 7 3001].

(* the state a SINGLETON run with the bypass is in after a first request,
   for service 7 *)
Definition afterFirstRequest : RunState :=
  match iteration 0 singletonBypassCase (generateAwilixConfig 50 SINGLETON) 0
                  (tickAt 7 1) (initialState scriptStart) with
  | Done (_, s) => s
  | _ => initialState scriptStart
  end.

(* every request issued so far has either completed or still has its job
   on the microtask queue *)
Definition allAccounted (frame : nat) (s : RunState) : Prop :=
  resolvedResults s + pendingOwn frame (microtasks s) = requestNumber s.

(* the call of [runTest] a job belongs to *)
Definition jobFrame (j : job) : nat :=
  match j with
  | ResumeMockAction f _ => f
  | ThenCallback f _ => f
  end.

(* every queued job belongs to a call numbered below [n] *)
Definition framesBelow (n : nat) (q : list job) : Prop :=
  Forall (fun j => jobFrame j < n) q.

(* the state after lines 87-110, the globals and caches being [w'] *)
Definition afterResolve (tk : Tick) (hit : bool) (w' : World) (s : RunState)
    : RunState :=
  {| world := w'; microtasks := microtasks s; promises := promises s;
     unresolvedPromises := unresolvedPromises s;
     resolvedResults := resolvedResults s;
     resolveCacheHits :=
       if hit then S (resolveCacheHits s) else resolveCacheHits s;
     maxInFlightHit := maxInFlightHit s;
     requestNumber := S (requestNumber s);
     msSpentResolving :=
       (msSpentResolving s + (resolveEndTime tk - resolveStartTime tk))%Z |}.

(* the request resolved by a call of [resolve] on the active container *)
Definition viaResolve (cfg : AwilixConfig) (target : ContainerRef) (nm : name)
    (w : World) (tk : Tick) (s : RunState) : outcome (instance * RunState) :=
  match resolve (container cfg) resolutionDepth target nm w with
  | Done (v, w') => Done (v, afterResolve tk false w' s)
  | Threw => Threw
  | Unfinished => Unfinished
  end.

(* the cartesian product of the four axes, the first axis varying slowest,
   each combination with the one per-test duration *)
Definition cartesianProduct (m : TestMatrix) : list TestCase :=
  map (fun '(ns, (mif, (lt, cb))) =>
         {| numberServices := ns; maxInFlight := mif; lifetimeType := lt;
            cacheBypass := cb; numberSeconds := secondsPerTest |})
      (list_prod (mx_numberServices m)
         (list_prod (mx_maxInFlight m)
            (list_prod (mx_lifetimeType m) (mx_cacheBypass m)))).

(* the first case of the script's matrix *)
Definition firstCase : TestCase := caseOf 50 TRANSIENT true.

(* [n] iterations, each one millisecond into the run *)
Definition steady (n : nat) : RunOracle := oracleOf (repeat (tickAt 0 1) n).

(* the first case's run at the end of iteration [n], when [n] iterations
   fit in the budget *)
Definition stateAfter (n : nat) : option RunState :=
  nth_error
    (statesVisited 0 firstCase
       (generateAwilixConfig (numberServices firstCase) (lifetimeType firstCase))
       (startTime (steady n)) (ticks (steady n)) (initialState scriptStart))
    (pred n).

(* what the claims about the cap look at in a state *)
Record Observation := {
  ob_size : nat;                          (* unresolvedPromises.size *)
  ob_capHit : bool;                       (* maxInFlightHit *)
  ob_oldest : option (nat * nat);         (* entries().next().value *)
  ob_oldestHandle : option PromiseState;  (* the promise made for request 1 *)
  ob_request1 : option nat;               (* unresolvedPromises.get(1) *)
  ob_nonePending : bool;                  (* no handle is pending *)
  ob_allPending : bool;                   (* every handle is pending *)
  ob_resolved : nat                       (* resolvedResults *)
}.

Definition pendingb (p : PromiseState) : bool :=
  match p with Pending => true | Fulfilled => false end.

Definition observe (s : RunState) : Observation :=
  {| ob_size := JsMap.size (unresolvedPromises s);
     ob_capHit := maxInFlightHit s;
     ob_oldest := JsMap.value (JsMap.entries_next (unresolvedPromises s));
     ob_oldestHandle := promiseState 0 (promises s);
     ob_request1 := JsMap.get Nat.eqb 1 (unresolvedPromises s);
     ob_nonePending := negb (existsb pendingb (promises s));
     ob_allPending := forallb pendingb (promises s);
     ob_resolved := resolvedResults s |}.

(** ** Vocabulary of the further properties *)

(* a [then] callback made by the call of [runTest] numbered [frame] *)
Definition ownThen (frame : nat) (j : job) : bool :=
  match j with
  | ThenCallback f _ => Nat.eqb f frame
  | ResumeMockAction _ _ => false
  end.

Definition ownThens (frame : nat) (q : list job) : nat :=
  length (filter (ownThen frame) q).

(* this call's jobs on the queue, in order *)
Definition ownQueue (frame : nat) (s : RunState) : list job :=
  filter (ownJob frame) (microtasks s).

(* the cap flag after [n] requests under the cap [M] *)
Definition hitAfter (M n : nat) : bool := (0 <? n) && (M <=? n).

(* the completions recorded after [n] requests under the cap [M] *)
Definition completionsAfter (M n : nat) : nat :=
  if n <=? Nat.max 1 M then 0 else n - 1.

(* this call's jobs after [n] requests: continuations of every request
   until the cap is reached, their callbacks at the iteration that
   reaches it, and from then on the callback of the latest request *)
Definition ownQueueAfter (frame M n : nat) : list job :=
  if n <? Nat.max 1 M then map (ResumeMockAction frame) (seq 0 n)
  else if n =? Nat.max 1 M then map (ThenCallback frame) (seq 0 n)
  else [ThenCallback frame (n - 1)].

(* whether the request for service [i] is served by the bypass, the
   services [chosen] having been requested before *)
Definition hitNow (lt : Lifetime) (bypass : bool) (chosen : list nat) (i : nat)
    : bool :=
  match lt with
  | SINGLETON => bypass && existsb (Nat.eqb i) chosen
  | _ => false
  end.

(* the loggers a request constructs *)
Definition loggersNow (lt : Lifetime) (chosen : list nat) : nat :=
  match lt with
  | TRANSIENT => 2
  | SCOPED => 1
  | SINGLETON => match chosen with [] => 1 | _ :: _ => 0 end
  end.

(* the cache hits of a run whose requests chose [chosen] *)
Definition hitsAfter (opts : TestCase) (chosen : list nat) : nat :=
  match lifetimeType opts with
  | SINGLETON =>
      if cacheBypass opts then length chosen - distinct chosen else 0
  | _ => 0
  end.

(* the constructions of such a run *)
Definition constructionsAfter (opts : TestCase) (chosen : list nat) : nat :=
  match lifetimeType opts with
  | TRANSIENT => 4 * length chosen
  | SCOPED => 3 * length chosen
  | SINGLETON =>
      2 * distinct chosen + match chosen with [] => 0 | _ :: _ => 1 end
  end.

(* the loggers constructed by such a run *)
Definition loggersAfter (opts : TestCase) (chosen : list nat) : nat :=
  match lifetimeType opts with
  | TRANSIENT => 2 * length chosen
  | SCOPED => length chosen
  | SINGLETON => match chosen with [] => 0 | _ :: _ => 1 end
  end.

(* the resolution times of a list of iterations, added up *)
Definition resolvingTime (tks : list Tick) : Z :=
  fold_right (fun tk acc => (resolveEndTime tk - resolveStartTime tk + acc)%Z)
             0%Z tks.

(* the clock never goes back between the readings of these iterations,
   from the reading [prev] before them to the reading [last] after them *)
Fixpoint clockMonotone (prev : Z) (tks : list Tick) (last : Z) : Prop :=
  match tks with
  | [] => (prev <= last)%Z
  | tk :: rest =>
      (prev <= resolveStartTime tk)%Z
      /\ (resolveStartTime tk <= resolveEndTime tk)%Z
      /\ (resolveEndTime tk <= checkTime tk)%Z
      /\ clockMonotone (checkTime tk) rest last
  end.

(* a small matrix and oracles for its four runs, five requests each *)
Definition smallMatrix : TestMatrix :=
  {| mx_numberServices := [2];
     mx_maxInFlight := [1; 3];
     mx_lifetimeType := [SINGLETON; TRANSIENT];
     mx_cacheBypass := [true] |}.

Definition fiveRequests : RunOracle :=
  {| startTime := 100;
     ticks := [ {| randomServiceIndex := 1; resolveStartTime := 100;
                   resolveEndTime := 102; checkTime := 103 |};
                {| randomServiceIndex := 0; resolveStartTime := 103;
                   resolveEndTime := 104; checkTime := 104 |};
                {| randomServiceIndex := 1; resolveStartTime := 104;
                   resolveEndTime := 104; checkTime := 105 |};
                {| randomServiceIndex := 1; resolveStartTime := 2000;
                   resolveEndTime := 2001; checkTime := 2001 |};
                {| randomServiceIndex := 0; resolveStartTime := 3100;
                   resolveEndTime := 3100; checkTime := 3101 |} ];
     endTime := 3101 |}.

(* a value that [flat] would open *)
Definition isArray (v : jsval) : Prop := exists elems, v = Arr elems.

(* the result of a run, from its case and what it read from outside *)
Definition expectedResult (opts : TestCase) (o : RunOracle) : RunResult.t :=
  let run := executed opts (startTime o) (ticks o) in
  let n := length run in
  {| RunResult.maxInFlightHit := hitAfter (maxInFlight opts) n;
     RunResult.requestNumber := n;
     RunResult.resolveCacheHits := hitsAfter opts (chosenBy run);
     RunResult.numberLogs := 2 * n;
     RunResult.resolvedResults := completionsAfter (maxInFlight opts) n;
     RunResult.totalSeconds := (endTime o - startTime o)%Z;
     RunResult.totalSecondsResolving := resolvingTime run;
     RunResult.totalDiInitializations :=
       constructionsAfter opts (chosenBy run) |}.

(* what the loop keeps true of the counters, for a run started with the
   logger id counter at [id0] that has gone through the iterations [hist] *)
Record Exact (opts : TestCase) (id0 : nat) (hist : list Tick)
    (s : RunState) : Prop := {
  ex_run : RunInv opts (chosenBy hist) s;
  ex_book : Bookkeeping s;
  ex_flag :
    maxInFlightHit s = hitAfter (maxInFlight opts) (requestNumber s);
  ex_hits : resolveCacheHits s = hitsAfter opts (chosenBy hist);
  ex_ms : msSpentResolving s = resolvingTime hist;
  ex_ids :
    mockLoggerIdCounter (globals (world s))
    = id0 + loggersAfter opts (chosenBy hist)
}.

(* what the loop keeps true of its own jobs and of the completions *)
Record Drained (frame : nat) (opts : TestCase) (s : RunState) : Prop := {
  dr_book : Bookkeeping s;
  dr_queue :
    ownQueue frame s = ownQueueAfter frame (maxInFlight opts) (requestNumber s);
  dr_resolved :
    resolvedResults s = completionsAfter (maxInFlight opts) (requestNumber s)
}.

(** * Properties *)

(** ** Keys and maps *)

Lemma name_eqb_eq (a b : name) : name_eqb a b = true <-> a = b.
Proof.
  destruct a as [i|i|], b as [j|j|]; simpl; split; intro H;
    try discriminate; try reflexivity;
    try (apply Nat.eqb_eq in H; subst; reflexivity);
    try (injection H as ->; apply Nat.eqb_refl).
Qed.

Lemma name_eqb_refl (a : name) : name_eqb a a = true.
Proof. apply name_eqb_eq; reflexivity. Qed.

Lemma name_eqb_neq (a b : name) : a <> b -> name_eqb a b = false.
Proof.
  intro H. destruct (name_eqb a b) eqn:E; [|reflexivity].
  apply name_eqb_eq in E. contradiction.
Qed.

Section MapFacts.
Variables K V : Type.
Variable eqb : K -> K -> bool.
Hypothesis eqb_eq : forall a b, eqb a b = true <-> a = b.

Lemma get_app (k : K) (m1 m2 : JsMap.t K V) :
  JsMap.get eqb k (m1 ++ m2) =
  match JsMap.get eqb k m1 with
  | Some v => Some v
  | None => JsMap.get eqb k m2
  end.
Proof.
  induction m1 as [|[k' v'] m1 IH]; simpl; [reflexivity|].
  destruct (eqb k k'); [reflexivity|exact IH].
Qed.

Lemma get_set_same (k : K) (v : V) (m : JsMap.t K V) :
  JsMap.get eqb k (JsMap.set eqb k v m) = Some v.
Proof.
  assert (R : eqb k k = true) by (apply eqb_eq; reflexivity).
  induction m as [|[k' v'] m IH]; simpl.
  - rewrite R. reflexivity.
  - destruct (eqb k k') eqn:E; simpl.
    + rewrite R. reflexivity.
    + rewrite E. exact IH.
Qed.

Lemma get_set_other (k k0 : K) (v : V) (m : JsMap.t K V) :
  k <> k0 ->
  JsMap.get eqb k (JsMap.set eqb k0 v m) = JsMap.get eqb k m.
Proof.
  intro N.
  assert (F : eqb k k0 = false).
  { destruct (eqb k k0) eqn:E; [|reflexivity].
    apply eqb_eq in E. contradiction. }
  induction m as [|[k' v'] m IH]; simpl.
  - rewrite F. reflexivity.
  - destruct (eqb k0 k') eqn:E0; simpl.
    + apply eqb_eq in E0. subst k'. rewrite F. reflexivity.
    + destruct (eqb k k'); [reflexivity|exact IH].
Qed.

Lemma get_None_not_key (k : K) (m : JsMap.t K V) :
  JsMap.get eqb k m = None <-> ~ In k (JsMap.keys m).
Proof.
  induction m as [|[k' v'] m IH]; simpl.
  - split; [intros _ []|reflexivity].
  - destruct (eqb k k') eqn:E.
    + apply eqb_eq in E. subst. split; [discriminate|].
      intro H. exfalso. apply H. left. reflexivity.
    + rewrite IH. split.
      * intros H [H1|H1]; [|exact (H H1)].
        subst k'. assert (eqb k k = true) by (apply eqb_eq; reflexivity).
        congruence.
      * intros H H1. apply H. right. exact H1.
Qed.

(* setting a key that is absent appends it *)
Lemma set_absent (k : K) (v : V) (m : JsMap.t K V) :
  JsMap.get eqb k m = None -> JsMap.set eqb k v m = m ++ [(k, v)].
Proof.
  induction m as [|[k' v'] m IH]; simpl; [reflexivity|].
  destruct (eqb k k'); [discriminate|].
  intro H. rewrite (IH H). reflexivity.
Qed.
End MapFacts.

(** ** The registrations made by [generateAwilixConfig] *)

Section Registry.
Variable numberOfServices : nat.
Variable lt : Lifetime.

Let cfg := generateAwilixConfig numberOfServices lt.

Lemma get_repositories_other (nm : name) (l : list nat) :
  (forall i, nm <> mockRepository i) ->
  JsMap.get name_eqb nm
    (map (fun index => (mockRepository index, asFunction mockRepositoryFn lt)) l)
  = None.
Proof.
  intro H. induction l as [|a l IH]; simpl; [reflexivity|].
  rewrite (name_eqb_neq _ _ (H a)). exact IH.
Qed.

Lemma get_services_other (nm : name) (l : list nat) :
  (forall i, nm <> mockService i) ->
  JsMap.get name_eqb nm
    (map (fun index =>
            (mockService index,
             asFunction (mockServiceFn (mockRepository index)) lt)) l)
  = None.
Proof.
  intro H. induction l as [|a l IH]; simpl; [reflexivity|].
  rewrite (name_eqb_neq _ _ (H a)). exact IH.
Qed.

Lemma get_repositories_in (i : nat) (l : list nat) :
  In i l ->
  JsMap.get name_eqb (mockRepository i)
    (map (fun index => (mockRepository index, asFunction mockRepositoryFn lt)) l)
  = Some (asFunction mockRepositoryFn lt).
Proof.
  induction l as [|a l IH]; simpl; [intros []|].
  intro H. destruct (Nat.eqb i a) eqn:E; [reflexivity|].
  apply Nat.eqb_neq in E. destruct H as [H|H]; [congruence|exact (IH H)].
Qed.

Lemma get_services_in (i : nat) (l : list nat) :
  In i l ->
  JsMap.get name_eqb (mockService i)
    (map (fun index =>
            (mockService index,
             asFunction (mockServiceFn (mockRepository index)) lt)) l)
  = Some (asFunction (mockServiceFn (mockRepository i)) lt).
Proof.
  induction l as [|a l IH]; simpl; [intros []|].
  intro H. destruct (Nat.eqb i a) eqn:E.
  - apply Nat.eqb_eq in E. subst. reflexivity.
  - apply Nat.eqb_neq in E. destruct H as [H|H]; [congruence|exact (IH H)].
Qed.

Lemma registered_logger :
  JsMap.get name_eqb logger (container cfg) = Some (asFunction loggerFn lt).
Proof.
  unfold cfg, generateAwilixConfig; simpl.
  rewrite !get_app, get_repositories_other, get_services_other
    by (intros; discriminate).
  reflexivity.
Qed.

Lemma registered_repository (i : nat) :
  i < numberOfServices ->
  JsMap.get name_eqb (mockRepository i) (container cfg)
  = Some (asFunction mockRepositoryFn lt).
Proof.
  intro H. unfold cfg, generateAwilixConfig; simpl.
  rewrite get_app, get_repositories_in; [reflexivity|].
  apply in_seq. lia.
Qed.

Lemma registered_service (i : nat) :
  i < numberOfServices ->
  JsMap.get name_eqb (mockService i) (container cfg)
  = Some (asFunction (mockServiceFn (mockRepository i)) lt).
Proof.
  intro H. unfold cfg, generateAwilixConfig; simpl.
  rewrite !get_app, get_repositories_other by (intros; discriminate).
  rewrite get_services_in; [reflexivity|].
  apply in_seq. lia.
Qed.

Lemma mockServiceNames_spec :
  mockServiceNames cfg = map mockService (seq 0 numberOfServices).
Proof.
  unfold cfg, generateAwilixConfig, JsMap.keys; simpl.
  rewrite map_map. reflexivity.
Qed.

Lemma nth_mockServiceNames (i : nat) :
  i < numberOfServices ->
  nth_error (mockServiceNames cfg) i = Some (mockService i).
Proof.
  intro H. rewrite mockServiceNames_spec.
  rewrite nth_error_map.
  assert (E : nth_error (seq 0 numberOfServices) i = Some i).
  { rewrite (nth_error_nth' _ 0) by (rewrite length_seq; exact H).
    rewrite seq_nth by exact H. reflexivity. }
  rewrite E. reflexivity.
Qed.
End Registry.

(** ** Resolution of a service, by lifetime *)

Lemma generateAwilixConfig_registered (N : nat) (lt : Lifetime) :
  registered (container (generateAwilixConfig N lt)) lt N.
Proof.
  split.
  - apply registered_logger.
  - apply registered_repository.
  - apply registered_service.
Qed.

Ltac crunch R H rw :=
  repeat (cbn; unfold bind, getCache, cacheSet, ret; cbn;
          first [ rw
                | rewrite (reg_logger _ _ _ R)
                | rewrite (reg_repository _ _ _ R _ H)
                | rewrite (reg_service _ _ _ R _ H)
                | rewrite Nat.eqb_refl
                | rewrite (@get_set_same _ _ _ name_eqb_eq)
                | rewrite (@get_set_other _ _ _ name_eqb_eq) by discriminate ]);
  cbn; unfold bind, getCache, cacheSet, ret; cbn.

Lemma resolveService_transient (regs : Registrations) (N i : nat) (b : bool)
    (target : ContainerRef) (w : World) :
  registered regs TRANSIENT N ->
  i < N ->
  cacheOf target w = [] ->
  resolveService regs b target (mockService i) w
  = Done ((MockServiceLayer
             (MockLogger (mockLoggerIdCounter (globals w)))
             (MockRepositoryLayer
                (MockLogger (S (mockLoggerIdCounter (globals w))))), false),
          {| globals := bumpGlobals 4 2 (globals w);
             rootCache := rootCache w;
             scopeCache := scopeCache w |}).
Proof.
  intros R H C.
  unfold resolveService, resolutionDepth.
  destruct b.
  - unfold bind at 1. unfold getCache. rewrite C.
    crunch R H fail. reflexivity.
  - crunch R H fail. reflexivity.
Qed.

Lemma resolveService_scoped (regs : Registrations) (N i : nat) (b : bool)
    (w : World) :
  registered regs SCOPED N ->
  i < N ->
  scopeCache w = [] ->
  exists sc,
  resolveService regs b ChildScope (mockService i) w
  = Done ((MockServiceLayer
             (MockLogger (mockLoggerIdCounter (globals w)))
             (MockRepositoryLayer
                (MockLogger (mockLoggerIdCounter (globals w)))), false),
          {| globals := bumpGlobals 3 1 (globals w);
             rootCache := rootCache w;
             scopeCache := sc |}).
Proof.
  intros R H C.
  unfold resolveService, resolutionDepth.
  destruct b; crunch R H ltac:(rewrite C); eexists; reflexivity.
Qed.

Lemma resolveService_singleton_cached (regs : Registrations) (N i : nat)
    (b : bool) (w : World) (e : CacheEntry) :
  registered regs SINGLETON N ->
  i < N ->
  JsMap.get name_eqb (mockService i) (rootCache w) = Some e ->
  resolveService regs b RootContainer (mockService i) w
  = Done ((ce_value e, b), w).
Proof.
  intros R H C.
  unfold resolveService, resolutionDepth.
  destruct b; crunch R H ltac:(rewrite C); reflexivity.
Qed.

Lemma resolveService_singleton_first (regs : Registrations) (N i : nat)
    (b : bool) (w : World) :
  registered regs SINGLETON N ->
  i < N ->
  JsMap.get name_eqb (mockService i) (rootCache w) = None ->
  JsMap.get name_eqb (mockRepository i) (rootCache w) = None ->
  JsMap.get name_eqb logger (rootCache w) = None ->
  let l := MockLogger (mockLoggerIdCounter (globals w)) in
  let r := MockRepositoryLayer l in
  let s := MockServiceLayer l r in
  resolveService regs b RootContainer (mockService i) w
  = Done ((s, false),
          {| globals := bumpGlobals 3 1 (globals w);
             rootCache :=
               JsMap.set name_eqb (mockService i)
                 {| ce_resolver := asFunction (mockServiceFn (mockRepository i)) SINGLETON;
                    ce_value := s |}
                 (JsMap.set name_eqb (mockRepository i)
                    {| ce_resolver := asFunction mockRepositoryFn SINGLETON;
                       ce_value := r |}
                    (JsMap.set name_eqb logger
                       {| ce_resolver := asFunction loggerFn SINGLETON;
                          ce_value := l |}
                       (rootCache w)));
             scopeCache := scopeCache w |}).
Proof.
  intros R H Cs Cr Cl.
  unfold resolveService, resolutionDepth.
  destruct b;
    crunch R H ltac:(first [rewrite Cs | rewrite Cr | rewrite Cl]);
    reflexivity.
Qed.

Lemma resolveService_singleton_later (regs : Registrations) (N i : nat)
    (b : bool) (w : World) (el : CacheEntry) :
  registered regs SINGLETON N ->
  i < N ->
  JsMap.get name_eqb (mockService i) (rootCache w) = None ->
  JsMap.get name_eqb (mockRepository i) (rootCache w) = None ->
  JsMap.get name_eqb logger (rootCache w) = Some el ->
  let r := MockRepositoryLayer (ce_value el) in
  let s := MockServiceLayer (ce_value el) r in
  resolveService regs b RootContainer (mockService i) w
  = Done ((s, false),
          {| globals := bumpGlobals 2 0 (globals w);
             rootCache :=
               JsMap.set name_eqb (mockService i)
                 {| ce_resolver := asFunction (mockServiceFn (mockRepository i)) SINGLETON;
                    ce_value := s |}
                 (JsMap.set name_eqb (mockRepository i)
                    {| ce_resolver := asFunction mockRepositoryFn SINGLETON;
                       ce_value := r |}
                    (rootCache w));
             scopeCache := scopeCache w |}).
Proof.
  intros R H Cs Cr Cl.
  unfold resolveService, resolutionDepth.
  destruct b;
    crunch R H ltac:(first [rewrite Cs | rewrite Cr | rewrite Cl]);
    reflexivity.
Qed.

(** ** One iteration, given what the resolution did *)

Lemma iteration_of_resolution (frame : nat) (opts : TestCase)
    (cfg : AwilixConfig) (start : Z) (tk : Tick) (s : RunState)
    (nm : name) (v : instance) (hit : bool) (w' : World) :
  nth_error (mockServiceNames cfg) (randomServiceIndex tk) = Some nm ->
  resolveService (container cfg) (cacheBypass opts)
    (fst (targetContainer (lifetimeType opts) (world s))) nm
    (snd (targetContainer (lifetimeType opts) (world s)))
  = Done ((v, hit), w') ->
  shapedService v ->
  iteration frame opts cfg start tk s
  = Done (stops opts start tk,
          backpressure frame opts (afterIssue frame tk hit (logTwice w') s)).
Proof.
  intros Hn Hr (a & b & ->).
  unfold iteration, resolveRequest.
  destruct (targetContainer (lifetimeType opts) (world s)) as [target w0].
  simpl in Hr. rewrite Hn, Hr. reflexivity.
Qed.

Lemma iteration_Done_in_range (frame : nat) (opts : TestCase) (start : Z)
    (tk : Tick) (s : RunState) (r : bool * RunState) :
  iteration frame opts
    (generateAwilixConfig (numberServices opts) (lifetimeType opts)) start tk s
  = Done r ->
  randomServiceIndex tk < numberServices opts.
Proof.
  unfold iteration, resolveRequest.
  destruct (targetContainer _ _) as [target w0].
  destruct (nth_error _ _) eqn:E; [|discriminate].
  intros _.
  assert (L : randomServiceIndex tk
              < length (mockServiceNames
                          (generateAwilixConfig (numberServices opts)
                                                (lifetimeType opts)))).
  { apply nth_error_Some. rewrite E. discriminate. }
  rewrite mockServiceNames_spec, length_map, length_seq in L. exact L.
Qed.

(** ** What the root container holds during a run *)

Lemma distinct_cons_in (i : nat) (l : list nat) :
  In i l -> distinct (i :: l) = distinct l.
Proof.
  intro H. unfold distinct. simpl.
  destruct (in_dec Nat.eq_dec i l); [reflexivity|contradiction].
Qed.

Lemma distinct_cons_notin (i : nat) (l : list nat) :
  ~ In i l -> distinct (i :: l) = S (distinct l).
Proof.
  intro H. unfold distinct. simpl.
  destruct (in_dec Nat.eq_dec i l); [contradiction|reflexivity].
Qed.

Lemma singletonInv_again (chosen : list nat) (w : World) (i : nat) :
  singletonInv chosen w -> In i chosen -> singletonInv (i :: chosen) w.
Proof.
  intros I Hin.
  assert (E : forall j, In j (i :: chosen) <-> In j chosen).
  { intro j. simpl. split; [intros [<-|H]; assumption|intro; right; assumption]. }
  split.
  - intro j. rewrite E. apply (si_service _ _ I).
  - intro j. rewrite E. apply (si_repository _ _ I).
  - rewrite (si_logger _ _ I). split; [discriminate|].
    intros _ ->. destruct Hin.
  - rewrite (distinct_cons_in i chosen Hin), (si_count _ _ I).
    destruct chosen; [destruct Hin|reflexivity].
  - apply (si_shape_service _ _ I).
  - apply (si_shape_logger _ _ I).
Qed.

Ltac cache_lookup :=
  repeat first
    [ rewrite (@get_set_same _ _ _ name_eqb_eq)
    | rewrite (@get_set_other _ _ _ name_eqb_eq) by congruence ].

Lemma singletonInv_new (chosen : list nat) (w : World) (i : nat)
    (l : instance) (extra : nat) (c0 : Cache) (rs rr : Resolver) (a : nat) :
  singletonInv chosen w ->
  ~ In i chosen ->
  l = MockLogger a ->
  (forall nm, nm <> logger ->
     JsMap.get name_eqb nm c0 = JsMap.get name_eqb nm (rootCache w)) ->
  (exists el, JsMap.get name_eqb logger c0 = Some el /\ ce_value el = l) ->
  extra = match chosen with [] => 1 | _ :: _ => 0 end ->
  singletonInv (i :: chosen)
    {| globals := bumpGlobals (2 + extra) extra (globals w);
       rootCache :=
         JsMap.set name_eqb (mockService i)
           {| ce_resolver := rs;
              ce_value := MockServiceLayer l (MockRepositoryLayer l) |}
           (JsMap.set name_eqb (mockRepository i)
              {| ce_resolver := rr; ce_value := MockRepositoryLayer l |} c0);
       scopeCache := scopeCache w |}.
Proof.
  intros I Hnew -> Hc0 (el & Hel & Hl) ->.
  split; cbn [rootCache globals bumpGlobals totalDiInitializations].
  - intro j. destruct (Nat.eq_dec j i) as [->|Hj].
    + cache_lookup. split; [intros _; left; reflexivity|discriminate].
    + cache_lookup. rewrite Hc0 by discriminate. rewrite (si_service _ _ I).
      simpl. split; [tauto|intros [H|H]; [congruence|exact H]].
  - intro j. destruct (Nat.eq_dec j i) as [->|Hj].
    + cache_lookup. split; [intros _; left; reflexivity|discriminate].
    + cache_lookup. rewrite Hc0 by discriminate. rewrite (si_repository _ _ I).
      simpl. split; [tauto|intros [H|H]; [congruence|exact H]].
  - cache_lookup. rewrite Hel. split; discriminate.
  - rewrite (distinct_cons_notin i chosen Hnew), (si_count _ _ I).
    destruct chosen; lia.
  - intros j e. destruct (Nat.eq_dec j i) as [->|Hj].
    + cache_lookup. intros [= <-]. simpl. exists a, a. reflexivity.
    + cache_lookup. rewrite Hc0 by discriminate. apply (si_shape_service _ _ I).
  - intro e. cache_lookup. rewrite Hel. intros [= <-]. exists a. exact Hl.
Qed.

Lemma worldOk_initial (lt : Lifetime) (g : Globals) :
  worldOk lt [] {| globals := resetGlobals g; rootCache := []; scopeCache := [] |}.
Proof.
  destruct lt; try reflexivity.
  split; simpl; try tauto; try discriminate.
Qed.

(** The resolution step of one request, for any lifetime: it succeeds,
    yields a service object, and keeps the root container as described. *)
Lemma resolution_step (regs : Registrations) (N : nat) (lt : Lifetime)
    (b : bool) (chosen : list nat) (w : World) (i : nat) :
  registered regs lt N ->
  worldOk lt chosen w ->
  i < N ->
  exists v hit w',
    resolveService regs b (fst (targetContainer lt w)) (mockService i)
                   (snd (targetContainer lt w))
    = Done ((v, hit), w')
    /\ shapedService v
    /\ worldOk lt (i :: chosen) w'
    /\ numberLogs (globals w') = numberLogs (globals w)
    /\ (lt = TRANSIENT ->
        hit = false /\
        totalDiInitializations (globals w')
        = 4 + totalDiInitializations (globals w))
    /\ (lt = SCOPED ->
        hit = false /\
        totalDiInitializations (globals w')
        = 3 + totalDiInitializations (globals w)).
Proof.
  intros R W H. destruct lt; cbn [targetContainer Lifetime_eqb fst snd].
  - (* TRANSIENT *)
    simpl in W.
    rewrite (resolveService_transient regs N i b RootContainer w R H W).
    do 3 eexists. split; [reflexivity|].
    split; [do 2 eexists; reflexivity|].
    split; [exact W|]. split; [reflexivity|].
    split; [intros _; split; reflexivity|discriminate].
  - (* SCOPED *)
    simpl in W.
    destruct (resolveService_scoped regs N i b (createScope w) R H eq_refl) as [sc E].
    rewrite E.
    do 3 eexists. split; [reflexivity|].
    split; [do 2 eexists; reflexivity|].
    split; [exact W|]. split; [reflexivity|].
    split; [discriminate|intros _; split; reflexivity].
  - (* SINGLETON *)
    simpl in W.
    destruct (JsMap.get name_eqb (mockService i) (rootCache w)) as [e|] eqn:Cs.
    + rewrite (resolveService_singleton_cached regs N i b w e R H Cs).
      assert (Hin : In i chosen).
      { apply (si_service _ _ W). rewrite Cs. discriminate. }
      do 3 eexists. split; [reflexivity|].
      split; [exact (si_shape_service _ _ W _ _ Cs)|].
      split; [exact (singletonInv_again _ _ _ W Hin)|].
      split; [reflexivity|]. split; discriminate.
    + assert (Hnew : ~ In i chosen).
      { intro Hin. apply (si_service _ _ W) in Hin. congruence. }
      assert (Cr : JsMap.get name_eqb (mockRepository i) (rootCache w) = None).
      { destruct (JsMap.get name_eqb (mockRepository i) (rootCache w)) eqn:E;
          [|reflexivity].
        exfalso. apply Hnew. apply (si_repository _ _ W). rewrite E. discriminate. }
      destruct (JsMap.get name_eqb logger (rootCache w)) as [el|] eqn:Cl.
      * rewrite (resolveService_singleton_later regs N i b w el R H Cs Cr Cl).
        destruct (si_shape_logger _ _ W _ Cl) as [a Ha].
        do 3 eexists. split; [reflexivity|].
        split; [rewrite Ha; do 2 eexists; reflexivity|].
        split.
        { assert (Hne : chosen <> []).
          { apply (si_logger _ _ W). rewrite Cl. discriminate. }
          apply (singletonInv_new chosen w i (ce_value el) 0 (rootCache w)
                   _ _ a W Hnew Ha).
          - reflexivity.
          - exists el. split; [exact Cl|reflexivity].
          - destruct chosen; [congruence|reflexivity]. }
        split; [reflexivity|]. split; discriminate.
      * rewrite (resolveService_singleton_first regs N i b w R H Cs Cr Cl).
        do 3 eexists. split; [reflexivity|].
        split; [do 2 eexists; reflexivity|].
        split.
        { assert (He : chosen = []).
          { destruct chosen as [|c chosen']; [reflexivity|].
            exfalso. assert (X : c :: chosen' <> []) by discriminate.
            apply (si_logger _ _ W) in X. congruence. }
          apply (singletonInv_new chosen w i _ 1 _ _ _ _ W Hnew eq_refl).
          - intros nm Hnm. cache_lookup. reflexivity.
          - eexists. split; [cache_lookup; reflexivity|reflexivity].
          - rewrite He. reflexivity. }
        split; [reflexivity|]. split; discriminate.
Qed.

(** ** The backpressure step *)

Lemma pendingOwn_app (frame : nat) (q1 q2 : list job) :
  pendingOwn frame (q1 ++ q2) = pendingOwn frame q1 + pendingOwn frame q2.
Proof. unfold pendingOwn. rewrite filter_app, length_app. reflexivity. Qed.

Lemma sameFrame_refl (s : RunState) : sameFrame s s.
Proof. split; reflexivity || apply le_n. Qed.

Lemma sameFrame_trans (s1 s2 s3 : RunState) :
  sameFrame s1 s2 -> sameFrame s2 s3 -> sameFrame s1 s3.
Proof.
  intros [a1 a2 a3 a4 a5 a6 a7] [b1 b2 b3 b4 b5 b6 b7].
  split; try congruence. lia.
Qed.

Lemma length_fulfil (h : nat) (ps : list PromiseState) :
  length (fulfil h ps) = length ps.
Proof.
  revert h. induction ps as [|p ps IH]; intros [|h]; simpl; try reflexivity.
  rewrite IH. reflexivity.
Qed.

Lemma exec_job_sameFrame (frame : nat) (j : job) (q : list job) (s : RunState) :
  sameFrame s (exec_job frame j (with_microtasks q s)).
Proof.
  destruct j as [f p|f p]; unfold exec_job; simpl.
  - split; reflexivity || apply le_n.
  - destruct (Nat.eqb f frame); split; simpl;
      try reflexivity; try apply le_n; try (apply le_S, le_n).
    apply length_fulfil.
Qed.

Lemma exec_job_accounted (frame : nat) (j : job) (q : list job) (s : RunState) :
  accounted frame (exec_job frame j (with_microtasks q s))
  = resolvedResults s + pendingOwn frame (j :: q).
Proof.
  unfold accounted.
  destruct j as [f p|f p]; unfold exec_job; simpl.
  - rewrite pendingOwn_app. unfold pendingOwn. simpl.
    destruct (Nat.eqb f frame); simpl; lia.
  - unfold pendingOwn. simpl.
    destruct (Nat.eqb f frame); simpl; rewrite app_nil_r; lia.
Qed.

Lemma runJobs_sameFrame (frame n : nat) (s : RunState) :
  sameFrame s (runJobs frame n s).
Proof.
  revert s. induction n as [|n IH]; intro s; simpl.
  - apply sameFrame_refl.
  - destruct (microtasks s) as [|j q] eqn:E; [apply sameFrame_refl|].
    eapply sameFrame_trans; [apply (exec_job_sameFrame frame j q s)|apply IH].
Qed.

Lemma runJobs_accounted (frame n : nat) (s : RunState) :
  accounted frame (runJobs frame n s) = accounted frame s.
Proof.
  revert s. induction n as [|n IH]; intro s; simpl; [reflexivity|].
  destruct (microtasks s) as [|j q] eqn:E; [reflexivity|].
  rewrite IH, exec_job_accounted. unfold accounted. rewrite E. reflexivity.
Qed.

Lemma backpressure_sameFrame (frame : nat) (opts : TestCase) (s : RunState) :
  sameFrame s (backpressure frame opts s).
Proof.
  unfold backpressure.
  destruct (maxInFlight opts <=? JsMap.size (unresolvedPromises s));
    [|apply sameFrame_refl].
  unfold awaitValue.
  match goal with
  | |- sameFrame _ (runJobs _ _ ?s1) =>
      destruct (runJobs_sameFrame frame (length (microtasks s1)) s1)
        as [a1 a2 a3 a4 a5 a6 a7]
  end.
  split; assumption.
Qed.

Lemma backpressure_accounted (frame : nat) (opts : TestCase) (s : RunState) :
  accounted frame (backpressure frame opts s) = accounted frame s.
Proof.
  unfold backpressure.
  destruct (maxInFlight opts <=? JsMap.size (unresolvedPromises s));
    [|reflexivity].
  unfold awaitValue. rewrite runJobs_accounted. reflexivity.
Qed.

(* the cap flag is set exactly when the check fires, and never cleared *)
Lemma backpressure_flag (frame : nat) (opts : TestCase) (s : RunState) :
  maxInFlightHit (backpressure frame opts s)
  = (maxInFlight opts <=? JsMap.size (unresolvedPromises s))
    || maxInFlightHit s.
Proof.
  assert (G : forall n s0, maxInFlightHit (runJobs frame n s0) = maxInFlightHit s0).
  { induction n as [|n IH]; intro s0; simpl; [reflexivity|].
    destruct (microtasks s0) as [|j q]; [reflexivity|].
    rewrite IH. destruct j as [f p|f p]; unfold exec_job; simpl;
      [reflexivity|]. destruct (Nat.eqb f frame); reflexivity. }
  unfold backpressure.
  destruct (maxInFlight opts <=? JsMap.size (unresolvedPromises s));
    [|reflexivity].
  unfold awaitValue. rewrite G. reflexivity.
Qed.

(** ** Bookkeeping that holds whatever the resolution does *)

Lemma iteration_shape (frame : nat) (opts : TestCase) (cfg : AwilixConfig)
    (start : Z) (tk : Tick) (s s' : RunState) (b : bool) :
  iteration frame opts cfg start tk s = Done (b, s') ->
  b = stops opts start tk /\
  exists hit w, s' = backpressure frame opts (afterIssue frame tk hit w s).
Proof.
  unfold iteration, resolveRequest, issueAction.
  destruct (targetContainer _ _) as [target w0].
  destruct (nth_error _ _) as [nm|]; [|discriminate].
  destruct (resolveService _ _ _ _ _) as [[[v hit] w1]| |]; try discriminate.
  cbn [world].
  destruct (serviceMockAction v w1) as [[u w2]| |]; try discriminate.
  intros [= <- <-]. split; [reflexivity|].
  exists hit, w2. reflexivity.
Qed.

Lemma inflight_S (n : nat) : inflight (S n) = inflight n ++ [(S n, n)].
Proof. unfold inflight. rewrite seq_S, map_app. reflexivity. Qed.

Lemma inflight_fresh (n : nat) : JsMap.get Nat.eqb (S n) (inflight n) = None.
Proof.
  apply (get_None_not_key _ _ Nat.eqb Nat.eqb_eq).
  unfold JsMap.keys, inflight. rewrite map_map. simpl.
  intro H. apply in_map_iff in H. destruct H as (k & E & Hk).
  apply in_seq in Hk. lia.
Qed.

Lemma length_inflight (n : nat) : JsMap.size (inflight n) = n.
Proof. unfold JsMap.size, inflight. rewrite length_map, length_seq. reflexivity. Qed.

Lemma Bookkeeping_initial (a : Ambient) : Bookkeeping (initialState a).
Proof. split; reflexivity. Qed.

Lemma iteration_Bookkeeping (frame : nat) (opts : TestCase)
    (cfg : AwilixConfig) (start : Z) (tk : Tick) (s s' : RunState) (b : bool) :
  iteration frame opts cfg start tk s = Done (b, s') ->
  Bookkeeping s ->
  Bookkeeping s' /\ requestNumber s' = S (requestNumber s).
Proof.
  intros E [Hi Hp].
  destruct (iteration_shape _ _ _ _ _ _ _ _ E) as (_ & hit & w & ->).
  destruct (backpressure_sameFrame frame opts (afterIssue frame tk hit w s))
    as [_ a2 _ a4 _ a6 _].
  simpl in a2, a4, a6.
  split; [split|exact a4].
  - rewrite a2, a4, Hi, Hp, inflight_S.
    apply (set_absent _ _ Nat.eqb). apply inflight_fresh.
  - rewrite a6, a4, length_app, Hp. simpl. lia.
Qed.

Lemma iteration_accounted (frame : nat) (opts : TestCase)
    (cfg : AwilixConfig) (start : Z) (tk : Tick) (s s' : RunState) (b : bool) :
  iteration frame opts cfg start tk s = Done (b, s') ->
  accounted frame s' = S (accounted frame s).
Proof.
  intro E.
  destruct (iteration_shape _ _ _ _ _ _ _ _ E) as (_ & hit & w & ->).
  rewrite backpressure_accounted. unfold accounted. simpl.
  rewrite pendingOwn_app. unfold pendingOwn at 2. simpl.
  rewrite Nat.eqb_refl. simpl. lia.
Qed.

(** ** Invariants of a loop *)

Section LoopInvariant.
Variables (frame : nat) (opts : TestCase) (cfg : AwilixConfig) (start : Z).
Variable P : RunState -> Prop.
Hypothesis step : forall tk s b s',
  P s -> iteration frame opts cfg start tk s = Done (b, s') -> P s'.

Lemma statesVisited_invariant (tks : list Tick) (s : RunState) :
  P s -> Forall P (statesVisited frame opts cfg start tks s).
Proof.
  revert s. induction tks as [|tk tks IH]; intros s Hs; simpl; [constructor|].
  destruct (iteration frame opts cfg start tk s) as [[b s']| |] eqn:E;
    try constructor.
  - exact (step _ _ _ _ Hs E).
  - destruct b; [constructor|]. apply IH. exact (step _ _ _ _ Hs E).
Qed.

Lemma loop_invariant (tks : list Tick) (s s' : RunState) :
  P s -> loop frame opts cfg start tks s = Done s' -> P s'.
Proof.
  revert s. induction tks as [|tk tks IH]; intros s Hs; simpl; [discriminate|].
  destruct (iteration frame opts cfg start tk s) as [[b s1]| |] eqn:E;
    try discriminate.
  destruct b.
  - intros [= <-]. exact (step _ _ _ _ Hs E).
  - apply IH. exact (step _ _ _ _ Hs E).
Qed.
End LoopInvariant.

(** ** The run invariant *)

Lemma chosenBy_cons (tk : Tick) (tks : list Tick) (chosen : list nat) :
  chosenBy (tk :: tks) ++ chosen
  = chosenBy tks ++ randomServiceIndex tk :: chosen.
Proof. unfold chosenBy. simpl. rewrite <- app_assoc. reflexivity. Qed.

Lemma RunInv_initial (opts : TestCase) (a : Ambient) :
  RunInv opts [] (initialState a).
Proof.
  split; simpl; try (intros _; split; reflexivity); try reflexivity.
  apply worldOk_initial.
Qed.

Lemma worldOk_logTwice (lt : Lifetime) (chosen : list nat) (w : World) :
  worldOk lt chosen w -> worldOk lt chosen (logTwice w).
Proof.
  destruct lt; simpl; try (intro H; exact H).
  intros [a b c d e f]. split; assumption.
Qed.

Lemma iteration_RunInv (frame : nat) (opts : TestCase) (start : Z) (tk : Tick)
    (chosen : list nat) (s : RunState) :
  RunInv opts chosen s ->
  randomServiceIndex tk < numberServices opts ->
  exists s',
    iteration frame opts
      (generateAwilixConfig (numberServices opts) (lifetimeType opts))
      start tk s
    = Done (stops opts start tk, s')
    /\ RunInv opts (randomServiceIndex tk :: chosen) s'.
Proof.
  intros [Hw Hr Hl Ht Hs] Hi.
  destruct (resolution_step _ _ _ (cacheBypass opts) chosen (world s) _
              (generateAwilixConfig_registered (numberServices opts)
                                               (lifetimeType opts)) Hw Hi)
    as (v & hit & w' & E & Sh & Hw' & Hl' & Ht' & Hs').
  eexists. split.
  - apply (iteration_of_resolution frame opts _ start tk s
             (mockService (randomServiceIndex tk)) v hit w').
    + apply nth_mockServiceNames. exact Hi.
    + exact E.
    + exact Sh.
  - destruct (backpressure_sameFrame frame opts
                (afterIssue frame tk hit (logTwice w') s))
      as [a1 _ a3 a4 _ _ _].
    simpl in a1, a3, a4.
    split; rewrite ?a1, ?a3, ?a4.
    + apply worldOk_logTwice. exact Hw'.
    + simpl. rewrite Hr. reflexivity.
    + simpl. rewrite Hl', Hl. lia.
    + intro L. destruct (Ht L) as [c1 c2]. destruct (Ht' L) as [-> d2].
      simpl. rewrite d2, c1, c2. split; [lia|reflexivity].
    + intro L. destruct (Hs L) as [c1 c2]. destruct (Hs' L) as [-> d2].
      simpl. rewrite d2, c1, c2. split; [lia|reflexivity].
Qed.

(* the same, read from a finished iteration *)
Lemma iteration_RunInv_Done (frame : nat) (opts : TestCase) (start : Z)
    (tk : Tick) (chosen : list nat) (s s' : RunState) (b : bool) :
  RunInv opts chosen s ->
  iteration frame opts
    (generateAwilixConfig (numberServices opts) (lifetimeType opts))
    start tk s
  = Done (b, s') ->
  RunInv opts (randomServiceIndex tk :: chosen) s'.
Proof.
  intros I E.
  destruct (iteration_RunInv frame opts start tk chosen s I
              (iteration_Done_in_range _ _ _ _ _ _ E)) as (s1 & E1 & I1).
  rewrite E in E1. injection E1 as _ <-. exact I1.
Qed.

Lemma loop_returns (frame : nat) (opts : TestCase) (start : Z)
    (tks : list Tick) (chosen : list nat) (s : RunState) :
  oracleOk opts start tks = true ->
  RunInv opts chosen s ->
  exists s',
    loop frame opts
      (generateAwilixConfig (numberServices opts) (lifetimeType opts))
      start tks s
    = Done s'
    /\ RunInv opts (chosenBy (executed opts start tks) ++ chosen) s'.
Proof.
  revert chosen s.
  induction tks as [|tk tks IH]; intros chosen s Ok I; simpl in Ok;
    [discriminate|].
  apply andb_true_iff in Ok. destruct Ok as [Hi Ok].
  apply Nat.ltb_lt in Hi.
  destruct (iteration_RunInv frame opts start tk chosen s I Hi)
    as (s1 & E1 & I1).
  cbn [loop executed]. rewrite E1.
  destruct (stops opts start tk) eqn:St.
  - exists s1. split; [reflexivity|exact I1].
  - simpl in Ok. destruct (IH _ _ Ok I1) as (s2 & E2 & I2).
    exists s2. split; [exact E2|].
    rewrite chosenBy_cons. exact I2.
Qed.

(* a run that returns was fed such an oracle *)
Lemma loop_Done_oracleOk (frame : nat) (opts : TestCase) (start : Z)
    (tks : list Tick) (s s' : RunState) :
  loop frame opts
    (generateAwilixConfig (numberServices opts) (lifetimeType opts))
    start tks s
  = Done s' ->
  oracleOk opts start tks = true.
Proof.
  revert s. induction tks as [|tk tks IH]; intro s; simpl; [discriminate|].
  destruct (iteration _ _ _ _ _ _) as [[b s1]| |] eqn:E; try discriminate.
  pose proof (iteration_Done_in_range _ _ _ _ _ _ E) as Hi.
  apply Nat.ltb_lt in Hi. rewrite Hi.
  destruct (iteration_shape _ _ _ _ _ _ _ _ E) as (-> & _).
  destruct (stops opts start tk); [reflexivity|].
  simpl. apply IH.
Qed.

(* [runTest] returns exactly under such oracles *)
Lemma runTest_returns (frame : nat) (opts : TestCase) (o : RunOracle)
    (a : Ambient) :
  oracleOk opts (startTime o) (ticks o) = true ->
  exists s,
    loop frame opts
      (generateAwilixConfig (numberServices opts) (lifetimeType opts))
      (startTime o) (ticks o) (initialState a)
    = Done s
    /\ runTest frame opts o a
       = Done (report o s,
               {| amb_globals := globals (world s);
                  amb_microtasks := microtasks s |})
    /\ RunInv opts (chosenBy (executed opts (startTime o) (ticks o))) s.
Proof.
  intro Ok.
  destruct (loop_returns frame opts (startTime o) (ticks o) [] _ Ok
              (RunInv_initial opts a)) as (s & E & I).
  rewrite app_nil_r in I.
  exists s. split; [exact E|]. split; [|exact I].
  unfold runTest. rewrite E. reflexivity.
Qed.

Lemma iteration_requestNumber (frame : nat) (opts : TestCase)
    (cfg : AwilixConfig) (start : Z) (tk : Tick) (s s' : RunState) (b : bool) :
  iteration frame opts cfg start tk s = Done (b, s') ->
  requestNumber s' = S (requestNumber s).
Proof.
  intro E.
  destruct (iteration_shape _ _ _ _ _ _ _ _ E) as (_ & hit & w & ->).
  rewrite (sf_requests _ _ (backpressure_sameFrame frame opts _)).
  reflexivity.
Qed.

(* the state after the iteration numbered [k] (from 0) has issued
   [k + 1] requests more than the state the loop started in *)
Lemma statesVisited_nth (frame : nat) (opts : TestCase) (cfg : AwilixConfig)
    (start : Z) (tks : list Tick) (s0 s : RunState) (k : nat) :
  nth_error (statesVisited frame opts cfg start tks s0) k = Some s ->
  requestNumber s = requestNumber s0 + S k.
Proof.
  revert s0 k. induction tks as [|tk tks IH]; intros s0 k; simpl.
  - destruct k; discriminate.
  - destruct (iteration frame opts cfg start tk s0) as [[b s1]| |] eqn:E;
      try (destruct k; discriminate).
    pose proof (iteration_requestNumber _ _ _ _ _ _ _ _ E) as R.
    destruct k as [|k]; simpl.
    + intros [= <-]. lia.
    + destruct b; [destruct k; discriminate|].
      intro H. rewrite (IH _ _ H), R. lia.
Qed.

Lemma visited_RunInv (frame : nat) (opts : TestCase) (o : RunOracle)
    (a : Ambient) :
  Forall (fun s => exists chosen, RunInv opts chosen s)
    (statesVisited frame opts
       (generateAwilixConfig (numberServices opts) (lifetimeType opts))
       (startTime o) (ticks o) (initialState a)).
Proof.
  apply statesVisited_invariant.
  - intros tk s b s' [chosen I] E. eexists.
    exact (iteration_RunInv_Done _ _ _ _ _ _ _ _ I E).
  - exists []. apply RunInv_initial.
Qed.

(* what a returned result was read from *)
Lemma runTest_Done_inv (frame : nat) (opts : TestCase) (o : RunOracle)
    (a : Ambient) (res : RunResult.t) (a' : Ambient) :
  runTest frame opts o a = Done (res, a') ->
  exists s,
    loop frame opts
      (generateAwilixConfig (numberServices opts) (lifetimeType opts))
      (startTime o) (ticks o) (initialState a) = Done s
    /\ res = report o s
    /\ a' = {| amb_globals := globals (world s);
               amb_microtasks := microtasks s |}
    /\ RunInv opts (chosenBy (executed opts (startTime o) (ticks o))) s.
Proof.
  intro E. pose proof E as E0. unfold runTest in E.
  destruct (loop _ _ _ _ _ _) as [s| |] eqn:L; try discriminate.
  injection E as <- <-.
  destruct (runTest_returns frame opts o a (loop_Done_oracleOk _ _ _ _ _ _ L))
    as (s1 & L1 & _ & I).
  rewrite L in L1. injection L1 as <-.
  exists s. split; [reflexivity|]. split; [reflexivity|].
  split; [reflexivity|exact I].
Qed.

(** ** The claims *)

(** C9.  Under the SCOPED lifetime the cache-hit counter stays at zero,
    with the cache bypass enabled or not: the container a request
    resolves from is a child scope made for it, whose cache is empty when
    the bypass inspects it.  So the counter is zero in every state the
    loop visits and in every result returned, and a run whose oracle
    lets it end returns such a result. *)
Theorem scoped_run_has_no_cache_hits (frame : nat) (opts : TestCase)
    (o : RunOracle) (a : Ambient) :
  lifetimeType opts = SCOPED ->
  (forall w,
     cacheOf (fst (targetContainer (lifetimeType opts) w))
             (snd (targetContainer (lifetimeType opts) w)) = [])
  /\ Forall (fun s => resolveCacheHits s = 0)
       (statesVisited frame opts
          (generateAwilixConfig (numberServices opts) (lifetimeType opts))
          (startTime o) (ticks o) (initialState a))
  /\ (forall res a',
        runTest frame opts o a = Done (res, a') ->
        RunResult.resolveCacheHits res = 0)
  /\ (oracleOk opts (startTime o) (ticks o) = true ->
      exists res a',
        runTest frame opts o a = Done (res, a')
        /\ RunResult.resolveCacheHits res = 0).
Proof.
  intro L. split; [|split; [|split]].
  - intro w. rewrite L. reflexivity.
  - eapply Forall_impl; [|apply visited_RunInv].
    intros s [chosen I]. exact (proj2 (ri_scoped _ _ _ I L)).
  - intros res a' E.
    destruct (runTest_Done_inv _ _ _ _ _ _ E) as (s & _ & -> & _ & I).
    exact (proj2 (ri_scoped _ _ _ I L)).
  - intro Ok.
    destruct (runTest_returns frame opts o a Ok) as (s & _ & E & I).
    do 2 eexists. split; [exact E|].
    exact (proj2 (ri_scoped _ _ _ I L)).
Qed.

Lemma scoped_run_has_no_cache_hits_witness :
  lifetimeType scopedCase = SCOPED
  /\ oracleOk scopedCase (startTime threeRequests) (ticks threeRequests) = true
  /\ exists res a',
       runTest 0 scopedCase threeRequests scriptStart = Done (res, a')
       /\ RunResult.resolveCacheHits res = 0.
Proof.
  split; [reflexivity|]. split; [reflexivity|].
  apply (scoped_run_has_no_cache_hits 0 scopedCase threeRequests scriptStart
           eq_refl).
  reflexivity.
Defined.

(** C5, as stated, fails: the first TRANSIENT case of the script's matrix,
    with one request issued, ends with four constructions, which is more
    than [requestsIssued * (2 + 1)].  The service's constructor and the
    repository's constructor each read [opts.logger], and each read of a
    TRANSIENT entry constructs a logger. *)
Lemma transient_bound_counterexample :
  lifetimeType transientCase = TRANSIENT
  /\ exists res a',
       runTest 0 transientCase oneRequest scriptStart = Done (res, a')
       /\ RunResult.requestNumber res = 1
       /\ RunResult.totalDiInitializations res = 4
       /\ ~ (RunResult.totalDiInitializations res
             <= RunResult.requestNumber res * (2 + 1)).
Proof.
  split; [reflexivity|].
  do 2 eexists. split; [vm_compute; reflexivity|].
  split; [reflexivity|]. split; [reflexivity|].
  simpl. lia.
Qed.

(** C5, amended.  Under the TRANSIENT lifetime every request constructs
    exactly four objects (the service, its repository, and a logger for
    each of the two), so the construction counter strictly increases with
    each request: after the request numbered [k + 1] it reads
    [4 * (k + 1)], and the value returned is [4 * requestsIssued]. *)
Theorem transient_run_constructs_four_per_request (frame : nat)
    (opts : TestCase) (o : RunOracle) (a : Ambient) :
  lifetimeType opts = TRANSIENT ->
  (forall k s,
     nth_error
       (statesVisited frame opts
          (generateAwilixConfig (numberServices opts) (lifetimeType opts))
          (startTime o) (ticks o) (initialState a)) k = Some s ->
     requestNumber s = S k
     /\ totalDiInitializations (globals (world s)) = 4 * S k)
  /\ (forall res a',
        runTest frame opts o a = Done (res, a') ->
        RunResult.totalDiInitializations res
        = 4 * RunResult.requestNumber res)
  /\ (oracleOk opts (startTime o) (ticks o) = true ->
      exists res a',
        runTest frame opts o a = Done (res, a')
        /\ RunResult.totalDiInitializations res
           = 4 * RunResult.requestNumber res).
Proof.
  intro L. split; [|split].
  - intros k s H.
    pose proof (statesVisited_nth _ _ _ _ _ _ _ _ H) as R. simpl in R.
    split; [exact R|].
    pose proof (visited_RunInv frame opts o a) as V.
    rewrite Forall_forall in V.
    destruct (V s (nth_error_In _ _ H)) as [chosen I].
    rewrite (proj1 (ri_transient _ _ _ I L)), R. reflexivity.
  - intros res a' E.
    destruct (runTest_Done_inv _ _ _ _ _ _ E) as (s & _ & -> & _ & I).
    exact (proj1 (ri_transient _ _ _ I L)).
  - intro Ok.
    destruct (runTest_returns frame opts o a Ok) as (s & _ & E & I).
    do 2 eexists. split; [exact E|].
    exact (proj1 (ri_transient _ _ _ I L)).
Qed.

Lemma transient_run_constructs_four_per_request_witness :
  lifetimeType transientCase = TRANSIENT
  /\ oracleOk transientCase (startTime oneRequest) (ticks oneRequest) = true
  /\ exists res a',
       runTest 0 transientCase oneRequest scriptStart = Done (res, a')
       /\ RunResult.totalDiInitializations res
          = 4 * RunResult.requestNumber res.
Proof.
  split; [reflexivity|]. split; [reflexivity|].
  apply (transient_run_constructs_four_per_request 0 transientCase oneRequest
           scriptStart eq_refl).
  reflexivity.
Defined.

(** C8.  A run starts by setting both process-wide counters to zero,
    before its first request; what it returns does not depend on the
    values they had; the result's two fields are the counters as they
    are when the run ends, and the log count is that of this run's own
    requests, two calls each. *)
Theorem counters_are_reset_each_run (frame : nat) (opts : TestCase)
    (o : RunOracle) (a : Ambient) :
  (requestNumber (initialState a) = 0
   /\ totalDiInitializations (globals (world (initialState a))) = 0
   /\ numberLogs (globals (world (initialState a))) = 0)
  /\ (forall constructions logs,
        runTest frame opts o
          {| amb_globals :=
               {| totalDiInitializations := constructions;
                  mockLoggerIdCounter := mockLoggerIdCounter (amb_globals a);
                  numberLogs := logs |};
             amb_microtasks := amb_microtasks a |}
        = runTest frame opts o a)
  /\ (forall res a',
        runTest frame opts o a = Done (res, a') ->
        RunResult.totalDiInitializations res
        = totalDiInitializations (amb_globals a')
        /\ RunResult.numberLogs res = numberLogs (amb_globals a')
        /\ RunResult.numberLogs res = 2 * RunResult.requestNumber res)
  /\ (oracleOk opts (startTime o) (ticks o) = true ->
      exists res a', runTest frame opts o a = Done (res, a')).
Proof.
  split; [|split; [|split]].
  - repeat split.
  - intros constructions logs. reflexivity.
  - intros res a' E.
    destruct (runTest_Done_inv _ _ _ _ _ _ E) as (s & _ & -> & -> & I).
    split; [reflexivity|]. split; [reflexivity|].
    exact (ri_logs _ _ _ I).
  - intro Ok.
    destruct (runTest_returns frame opts o a Ok) as (s & _ & E & _).
    do 2 eexists. exact E.
Qed.

(** ** Counting the services a run chose *)

Lemma oracleOk_executed (opts : TestCase) (start : Z) (tks : list Tick) :
  oracleOk opts start tks = true ->
  executed opts start tks <> []
  /\ Forall (fun tk => randomServiceIndex tk < numberServices opts)
       (executed opts start tks).
Proof.
  induction tks as [|tk tks IH]; simpl; [discriminate|].
  intro Ok. apply andb_true_iff in Ok. destruct Ok as [Hi Ok].
  apply Nat.ltb_lt in Hi.
  split; [discriminate|].
  constructor; [exact Hi|].
  destruct (stops opts start tk); [constructor|].
  simpl in Ok. exact (proj2 (IH Ok)).
Qed.

Lemma chosenBy_nonempty (tks : list Tick) : tks <> [] -> chosenBy tks <> [].
Proof.
  destruct tks as [|tk tks]; [congruence|].
  intros _ E. unfold chosenBy in E. simpl in E.
  destruct (rev (map randomServiceIndex tks)); discriminate.
Qed.

Lemma chosenBy_in_range (N : nat) (tks : list Tick) :
  Forall (fun tk => randomServiceIndex tk < N) tks ->
  forall i, In i (chosenBy tks) -> i < N.
Proof.
  intros F i H. unfold chosenBy in H.
  apply in_rev, in_map_iff in H. destruct H as (tk & <- & Htk).
  rewrite Forall_forall in F. exact (F tk Htk).
Qed.

Lemma distinct_bound (N : nat) (l : list nat) :
  (forall i, In i l -> i < N) ->
  distinct l <= N
  /\ (distinct l = N <-> forall i, i < N -> In i l).
Proof.
  intro R. unfold distinct.
  assert (ND : NoDup (nodup Nat.eq_dec l)) by apply NoDup_nodup.
  assert (I1 : incl (nodup Nat.eq_dec l) (seq 0 N)).
  { intros i Hi. apply nodup_In in Hi. apply in_seq. specialize (R i Hi). lia. }
  pose proof (NoDup_incl_length ND I1) as Le. rewrite length_seq in Le.
  split; [exact Le|]. split.
  - intros E i Hi.
    apply (nodup_In Nat.eq_dec).
    assert (I3 : incl (seq 0 N) (nodup Nat.eq_dec l)).
    { apply NoDup_length_incl; [exact ND|rewrite length_seq; lia|exact I1]. }
    apply I3. apply in_seq. lia.
  - intro All.
    assert (I2 : incl (seq 0 N) (nodup Nat.eq_dec l)).
    { intros i Hi. apply in_seq in Hi. apply nodup_In. apply All. lia. }
    pose proof (NoDup_incl_length (seq_NoDup N 0) I2) as Ge.
    rewrite length_seq in Ge. lia.
Qed.

(** C4, as stated, fails: a SINGLETON case of the script's matrix in which
    the three requests issued all chose service 7 ends with three
    constructions (that service, its repository and the logger), not
    [2 * 50 + 1].  The container constructs an entry when it is first
    resolved, and registering it constructs nothing. *)
Lemma singleton_count_counterexample :
  lifetimeType singletonCase = SINGLETON
  /\ exists res a',
       runTest 0 singletonCase sameServiceThrice scriptStart = Done (res, a')
       /\ RunResult.requestNumber res = 3
       /\ RunResult.totalDiInitializations res = 3
       /\ RunResult.totalDiInitializations res
          <> 2 * numberServices singletonCase + 1.
Proof.
  split; [reflexivity|].
  do 2 eexists. split; [vm_compute; reflexivity|].
  split; [reflexivity|]. split; [reflexivity|].
  simpl. discriminate.
Qed.

(** C4, amended.  Under the SINGLETON lifetime the construction counter
    read at run end is [2 * d + 1], where [d] is the number of different
    services the run's requests chose: each chosen service and its
    repository constructed once, and the shared logger once.  So it is at
    most [2 * serviceCount + 1] however many requests were issued, and it
    equals that exactly when every service was chosen at least once. *)
Theorem singleton_run_constructs_chosen_services_once (frame : nat)
    (opts : TestCase) (o : RunOracle) (a : Ambient) :
  lifetimeType opts = SINGLETON ->
  (forall res a',
     runTest frame opts o a = Done (res, a') ->
     let chosen := chosenBy (executed opts (startTime o) (ticks o)) in
     RunResult.totalDiInitializations res = 2 * distinct chosen + 1
     /\ RunResult.totalDiInitializations res <= 2 * numberServices opts + 1
     /\ (RunResult.totalDiInitializations res = 2 * numberServices opts + 1
         <-> forall i, i < numberServices opts -> In i chosen))
  /\ (oracleOk opts (startTime o) (ticks o) = true ->
      exists res a',
        runTest frame opts o a = Done (res, a')
        /\ RunResult.totalDiInitializations res
           = 2 * distinct (chosenBy (executed opts (startTime o) (ticks o)))
             + 1).
Proof.
  intro L.
  assert (Count : forall s,
    oracleOk opts (startTime o) (ticks o) = true ->
    RunInv opts (chosenBy (executed opts (startTime o) (ticks o))) s ->
    totalDiInitializations (globals (world s))
    = 2 * distinct (chosenBy (executed opts (startTime o) (ticks o))) + 1).
  { intros s Ok I. pose proof (ri_world _ _ _ I) as W. rewrite L in W.
    simpl in W. rewrite (si_count _ _ W).
    destruct (oracleOk_executed _ _ _ Ok) as [Ne _].
    apply chosenBy_nonempty in Ne.
    destruct (chosenBy _); [congruence|reflexivity]. }
  split.
  - intros res a' E chosen.
    destruct (runTest_Done_inv _ _ _ _ _ _ E) as (s & Lp & -> & _ & I).
    pose proof (loop_Done_oracleOk _ _ _ _ _ _ Lp) as Ok.
    pose proof (Count s Ok I) as C. fold chosen in C.
    destruct (oracleOk_executed _ _ _ Ok) as [_ Rg].
    destruct (distinct_bound (numberServices opts) chosen
                (chosenBy_in_range _ _ Rg)) as [Le Eq].
    cbn [report RunResult.totalDiInitializations].
    rewrite C. split; [reflexivity|]. split; [lia|].
    rewrite <- Eq. lia.
  - intro Ok.
    destruct (runTest_returns frame opts o a Ok) as (s & _ & E & I).
    do 2 eexists. split; [exact E|]. exact (Count s Ok I).
Qed.

Lemma singleton_run_constructs_chosen_services_once_witness :
  lifetimeType singletonCase = SINGLETON
  /\ oracleOk singletonCase (startTime sameServiceThrice)
       (ticks sameServiceThrice) = true
  /\ exists res a',
       runTest 0 singletonCase sameServiceThrice scriptStart = Done (res, a')
       /\ RunResult.totalDiInitializations res
          = 2 * distinct (chosenBy (executed singletonCase
                                      (startTime sameServiceThrice)
                                      (ticks sameServiceThrice)))
            + 1.
Proof.
  split; [reflexivity|]. split; [reflexivity|].
  apply (singleton_run_constructs_chosen_services_once 0 singletonCase
           sameServiceThrice scriptStart eq_refl).
  reflexivity.
Defined.

(** ** Completions and requests *)

Lemma visited_allAccounted (frame : nat) (opts : TestCase)
    (cfg : AwilixConfig) (start : Z) (tks : list Tick) (s : RunState) :
  allAccounted frame s ->
  Forall (allAccounted frame) (statesVisited frame opts cfg start tks s)
  /\ (forall s', loop frame opts cfg start tks s = Done s' ->
                 allAccounted frame s').
Proof.
  assert (step : forall tk s0 b s',
    allAccounted frame s0 ->
    iteration frame opts cfg start tk s0 = Done (b, s') ->
    allAccounted frame s').
  { intros tk s0 b s' A E. unfold allAccounted in *.
    pose proof (iteration_accounted _ _ _ _ _ _ _ _ E) as H1.
    pose proof (iteration_requestNumber _ _ _ _ _ _ _ _ E) as H2.
    unfold accounted in H1. lia. }
  intro A. split.
  - apply statesVisited_invariant with (P := allAccounted frame);
      [exact step|exact A].
  - intro s'. apply loop_invariant with (P := allAccounted frame);
      [exact step|exact A].
Qed.

(** C10.  Provided no job of this call of [runTest] is on the microtask
    queue when the call starts (its closures do not exist yet), at the
    end of every iteration the completions and the requests whose job is
    still queued add up to the requests issued; so the completion count
    never exceeds the issued-request count, in the loop and in the
    result returned.  Within an iteration the request number is
    incremented first and the completion count only grows afterwards, up
    to its value at the end of that iteration. *)
Theorem completions_never_exceed_requests (frame : nat) (opts : TestCase)
    (o : RunOracle) (a : Ambient) :
  pendingOwn frame (amb_microtasks a) = 0 ->
  Forall (fun s =>
            resolvedResults s + pendingOwn frame (microtasks s)
            = requestNumber s
            /\ resolvedResults s <= requestNumber s)
    (statesVisited frame opts
       (generateAwilixConfig (numberServices opts) (lifetimeType opts))
       (startTime o) (ticks o) (initialState a))
  /\ (forall res a',
        runTest frame opts o a = Done (res, a') ->
        RunResult.resolvedResults res <= RunResult.requestNumber res)
  /\ (oracleOk opts (startTime o) (ticks o) = true ->
      exists res a',
        runTest frame opts o a = Done (res, a')
        /\ RunResult.resolvedResults res <= RunResult.requestNumber res).
Proof.
  intro Fresh.
  assert (A0 : allAccounted frame (initialState a)).
  { unfold allAccounted. simpl. exact Fresh. }
  destruct (visited_allAccounted frame opts
              (generateAwilixConfig (numberServices opts) (lifetimeType opts))
              (startTime o) (ticks o) _ A0) as [V Lp].
  split; [|split].
  - eapply Forall_impl; [|exact V].
    intros s A. unfold allAccounted in A. split; [exact A|lia].
  - intros res a' E.
    destruct (runTest_Done_inv _ _ _ _ _ _ E) as (s & Ls & -> & _ & _).
    pose proof (Lp s Ls) as A. unfold allAccounted in A. simpl. lia.
  - intro Ok.
    destruct (runTest_returns frame opts o a Ok) as (s & Ls & E & _).
    do 2 eexists. split; [exact E|].
    pose proof (Lp s Ls) as A. unfold allAccounted in A. simpl. lia.
Qed.

Lemma completions_never_exceed_requests_witness :
  pendingOwn 0 (amb_microtasks scriptStart) = 0
  /\ oracleOk scopedCase (startTime threeRequests) (ticks threeRequests) = true
  /\ exists res a',
       runTest 0 scopedCase threeRequests scriptStart = Done (res, a')
       /\ RunResult.resolvedResults res <= RunResult.requestNumber res.
Proof.
  split; [reflexivity|]. split; [reflexivity|].
  apply (completions_never_exceed_requests 0 scopedCase threeRequests
           scriptStart eq_refl).
  reflexivity.
Defined.

(** In [main] the hypothesis of C10 holds for every call: the jobs on the
    queue were made by calls of [runTest] that came before. *)

Lemma framesBelow_fresh (n : nat) (q : list job) :
  framesBelow n q -> pendingOwn n q = 0.
Proof.
  unfold framesBelow, pendingOwn.
  induction 1 as [|j q Hj _ IH]; simpl; [reflexivity|].
  assert (E : ownJob n j = false).
  { destruct j as [f p|f p]; simpl in *; apply Nat.eqb_neq; lia. }
  rewrite E. exact IH.
Qed.

Lemma framesBelow_weaken (n m : nat) (q : list job) :
  n <= m -> framesBelow n q -> framesBelow m q.
Proof.
  intros Le F. eapply Forall_impl; [|exact F]. simpl. intros j Hj. lia.
Qed.

Lemma runJobs_framesBelow (frame n k : nat) (s : RunState) :
  framesBelow k (microtasks s) ->
  framesBelow k (microtasks (runJobs frame n s)).
Proof.
  revert s. induction n as [|n IH]; intros s F; simpl; [exact F|].
  destruct (microtasks s) as [|j q] eqn:E; [rewrite E; exact F|].
  apply IH. inversion F as [|j' q' Hj Hq]; subst.
  assert (G : framesBelow k (q ++ spawned j)).
  { apply Forall_app. split; [exact Hq|].
    destruct j as [f p|f p]; simpl; [|constructor].
    constructor; [exact Hj|constructor]. }
  destruct j as [f p|f p]; unfold exec_job; simpl; [exact G|].
  destruct (Nat.eqb f frame); simpl; rewrite app_nil_r; exact Hq.
Qed.

Lemma runTest_framesBelow (frame : nat) (opts : TestCase) (o : RunOracle)
    (a : Ambient) (res : RunResult.t) (a' : Ambient) :
  framesBelow frame (amb_microtasks a) ->
  runTest frame opts o a = Done (res, a') ->
  framesBelow (S frame) (amb_microtasks a').
Proof.
  intros F E.
  destruct (runTest_Done_inv _ _ _ _ _ _ E) as (s & Ls & _ & -> & _).
  simpl.
  apply (loop_invariant frame opts
           (generateAwilixConfig (numberServices opts) (lifetimeType opts))
           (startTime o)
           (fun s => framesBelow (S frame) (microtasks s)))
    with (tks := ticks o) (s := initialState a); [| |exact Ls].
  - intros tk s0 b s' F0 E0.
    destruct (iteration_shape _ _ _ _ _ _ _ _ E0) as (_ & hit & w & ->).
    unfold backpressure.
    destruct (maxInFlight opts <=? _); [unfold awaitValue|];
      [apply runJobs_framesBelow|]; simpl;
      (apply Forall_app; split; [exact F0|]);
      (constructor; [simpl; lia|constructor]).
  - simpl. apply (framesBelow_weaken frame); [lia|exact F].
Qed.

Lemma awaitRun_framesBelow (n : nat) (a : Ambient) :
  framesBelow n (amb_microtasks a) ->
  framesBelow n (amb_microtasks (awaitRun a)).
Proof.
  unfold framesBelow. simpl. induction 1 as [|j q Hj _ IH]; simpl;
    [constructor|].
  apply Forall_app. split; [|exact IH].
  destruct j as [f p|f p]; simpl; [|constructor].
  constructor; [exact Hj|constructor].
Qed.

Lemma runCases_results_bounded (frame : nat) (cases : list jsval)
    (oracles : list RunOracle) (a : Ambient)
    (results : list (TestCase * RunResult.t)) (a' : Ambient) :
  framesBelow frame (amb_microtasks a) ->
  runCases frame cases oracles a = Done (results, a') ->
  Forall (fun cr =>
            RunResult.resolvedResults (snd cr)
            <= RunResult.requestNumber (snd cr)) results.
Proof.
  revert frame oracles a results a'.
  induction cases as [|c cases IH]; intros frame oracles a results a' F; simpl.
  - intros [= <- <-]. constructor.
  - destruct c as [testCase|?]; [|discriminate].
    destruct oracles as [|o oracles]; [discriminate|].
    destruct (runTest frame testCase o a) as [[result a1]| |] eqn:E;
      try discriminate.
    destruct (runCases (S frame) cases oracles (awaitRun a1))
      as [[rs a2]| |] eqn:E2; try discriminate.
    intros [= <- <-]. constructor.
    + simpl.
      destruct (runTest_Done_inv _ _ _ _ _ _ E) as (s & Ls & -> & _ & _).
      assert (A0 : allAccounted frame (initialState a)).
      { unfold allAccounted. simpl. apply framesBelow_fresh. exact F. }
      pose proof (proj2 (visited_allAccounted frame testCase _ _ _ _ A0) s Ls)
        as A.
      unfold allAccounted in A. simpl. lia.
    + apply (IH (S frame) oracles (awaitRun a1) rs a2); [|exact E2].
      apply awaitRun_framesBelow.
      exact (runTest_framesBelow _ _ _ _ _ _ F E).
Qed.

(** ** The cache-bypass shortcut *)

(** C7.  In an iteration that chose the service name [nm], with [target]
    the container active for the request: when the bypass is enabled and
    [target]'s cache has an entry for [nm], the request uses the entry's
    instance, the hit counter goes up by one and nothing else of the
    globals and caches changes, [resolve] not being called; when the
    bypass is enabled and the cache has no entry, and whenever the bypass
    is disabled, the request is resolved by [resolve] and the hit counter
    stays. *)
Theorem cache_bypass_decides_resolution (opts : TestCase) (cfg : AwilixConfig)
    (tk : Tick) (s : RunState) (nm : name) :
  nth_error (mockServiceNames cfg) (randomServiceIndex tk) = Some nm ->
  let target := fst (targetContainer (lifetimeType opts) (world s)) in
  let w := snd (targetContainer (lifetimeType opts) (world s)) in
  (cacheBypass opts = true ->
   forall e, JsMap.get name_eqb nm (cacheOf target w) = Some e ->
   resolveRequest opts cfg tk s = Done (ce_value e, afterResolve tk true w s))
  /\ (cacheBypass opts = true ->
      JsMap.get name_eqb nm (cacheOf target w) = None ->
      resolveRequest opts cfg tk s = viaResolve cfg target nm w tk s)
  /\ (cacheBypass opts = false ->
      resolveRequest opts cfg tk s = viaResolve cfg target nm w tk s).
Proof.
  intros Hn target w.
  unfold resolveRequest, viaResolve. subst target w.
  destruct (targetContainer (lifetimeType opts) (world s)) as [target w].
  cbn [fst snd]. rewrite Hn. unfold resolveService.
  split; [|split].
  - intros -> e He. unfold bind, getCache. rewrite He. reflexivity.
  - intros -> He. unfold bind, getCache. rewrite He.
    destruct (resolve _ _ _ _ _) as [[v w']| |]; reflexivity.
  - intros ->. unfold bind.
    destruct (resolve _ _ _ _ _) as [[v w']| |]; reflexivity.
Qed.

(* in the state after a first request for service 7, a second one for
   the same service is served from the root container's cache *)
Example second_request_is_a_cache_hit :
  option_map (fun r => resolveCacheHits (snd r))
    (match resolveRequest singletonBypassCase
             (generateAwilixConfig 50 SINGLETON) (tickAt 7 2)
             afterFirstRequest with
     | Done r => Some r
     | _ => None
     end) = Some 1
  /\ totalDiInitializations (globals (world afterFirstRequest)) = 3.
Proof. split; vm_compute; reflexivity. Qed.

Lemma cache_bypass_decides_resolution_witness :
  nth_error (mockServiceNames (generateAwilixConfig 50 SINGLETON))
            (randomServiceIndex (tickAt 7 2)) = Some (mockService 7)
  /\ let target :=
       fst (targetContainer (lifetimeType singletonBypassCase)
              (world afterFirstRequest)) in
     let w :=
       snd (targetContainer (lifetimeType singletonBypassCase)
              (world afterFirstRequest)) in
     (cacheBypass singletonBypassCase = true ->
      forall e,
        JsMap.get name_eqb (mockService 7) (cacheOf target w) = Some e ->
        resolveRequest singletonBypassCase (generateAwilixConfig 50 SINGLETON)
          (tickAt 7 2) afterFirstRequest
        = Done (ce_value e, afterResolve (tickAt 7 2) true w afterFirstRequest))
     /\ (cacheBypass singletonBypassCase = true ->
         JsMap.get name_eqb (mockService 7) (cacheOf target w) = None ->
         resolveRequest singletonBypassCase (generateAwilixConfig 50 SINGLETON)
           (tickAt 7 2) afterFirstRequest
         = viaResolve (generateAwilixConfig 50 SINGLETON) target
             (mockService 7) w (tickAt 7 2) afterFirstRequest)
     /\ (cacheBypass singletonBypassCase = false ->
         resolveRequest singletonBypassCase (generateAwilixConfig 50 SINGLETON)
           (tickAt 7 2) afterFirstRequest
         = viaResolve (generateAwilixConfig 50 SINGLETON) target
             (mockService 7) w (tickAt 7 2) afterFirstRequest).
Proof.
  split; [reflexivity|].
  apply (cache_bypass_decides_resolution singletonBypassCase
           (generateAwilixConfig 50 SINGLETON) (tickAt 7 2)
           afterFirstRequest (mockService 7) eq_refl).
Defined.

(** ** The matrix *)

Lemma flat_arrays {A : Type} (d : nat) (f : A -> list jsval) (l : list A) :
  flat (S d) (map (fun x => Arr (f x)) l) = flat_map (fun x => flat d (f x)) l.
Proof.
  induction l as [|x l IH]; [reflexivity|].
  cbn [map flat flat_map] in *. rewrite IH. reflexivity.
Qed.

Lemma flat_objects {A : Type} (d : nat) (g : A -> TestCase) (l : list A) :
  flat d (map (fun x => Obj (g x)) l) = map (fun x => Obj (g x)) l.
Proof.
  induction l as [|x l IH]; [destruct d; reflexivity|].
  destruct d; cbn [map flat flat_map] in *; rewrite IH; reflexivity.
Qed.

(* flattening one more level of arrays adds one more axis to the product *)
Lemma flat_axis {A B : Type} (d : nat) (inner : A -> list jsval)
    (g : A -> B -> TestCase) (l : list A) (l' : list B) :
  (forall x, flat d (inner x) = map Obj (map (g x) l')) ->
  flat (S d) (map (fun x => Arr (inner x)) l)
  = map Obj (map (fun p => g (fst p) (snd p)) (list_prod l l')).
Proof.
  intro H. rewrite flat_arrays.
  induction l as [|x l IH]; [reflexivity|].
  simpl. rewrite H, IH, !map_app, !map_map. reflexivity.
Qed.

Lemma testCasesOf_spec (m : TestMatrix) :
  testCasesOf m = map Obj (cartesianProduct m).
Proof.
  unfold testCasesOf, nestedCases, cartesianProduct.
  etransitivity.
  - apply (flat_axis 3 _
             (fun ns q =>
                {| numberServices := ns; maxInFlight := fst q;
                   lifetimeType := fst (snd q); cacheBypass := snd (snd q);
                   numberSeconds := secondsPerTest |})).
    intro ns.
    apply (flat_axis 2 _
             (fun mif p =>
                {| numberServices := ns; maxInFlight := mif;
                   lifetimeType := fst p; cacheBypass := snd p;
                   numberSeconds := secondsPerTest |})).
    intro mif.
    apply (flat_axis 1 _
             (fun lt cb =>
                {| numberServices := ns; maxInFlight := mif;
                   lifetimeType := lt; cacheBypass := cb;
                   numberSeconds := secondsPerTest |})).
    intro lt. rewrite flat_objects, map_map. reflexivity.
  - f_equal. apply map_ext. intros [ns [mif [lt cb]]]. reflexivity.
Qed.

Lemma NoDup_list_prod {A B : Type} (l : list A) (l' : list B) :
  NoDup l -> NoDup l' -> NoDup (list_prod l l').
Proof.
  intros Hl Hl'. induction Hl as [|x l Hx Hl IH]; simpl; [constructor|].
  apply NoDup_app.
  - apply Finite.Injective_map_NoDup; [|exact Hl'].
    intros y1 y2 [= E]. exact E.
  - exact IH.
  - intros [a b] H1 H2. apply in_map_iff in H1. destruct H1 as (y & [= <- <-] & _).
    apply in_prod_iff in H2. exact (Hx (proj1 H2)).
Qed.

Lemma cartesianProduct_In (m : TestMatrix) (c : TestCase) :
  In c (cartesianProduct m) <->
  In (numberServices c) (mx_numberServices m)
  /\ In (maxInFlight c) (mx_maxInFlight m)
  /\ In (lifetimeType c) (mx_lifetimeType m)
  /\ In (cacheBypass c) (mx_cacheBypass m)
  /\ numberSeconds c = secondsPerTest.
Proof.
  unfold cartesianProduct. rewrite in_map_iff. split.
  - intros ([ns [mif [lt cb]]] & <- & H).
    rewrite !in_prod_iff in H. simpl. tauto.
  - intros (H1 & H2 & H3 & H4 & H5).
    exists (numberServices c, (maxInFlight c, (lifetimeType c, cacheBypass c))).
    split; [destruct c; simpl in *; subst; reflexivity|].
    rewrite !in_prod_iff. tauto.
Qed.

Lemma cartesianProduct_NoDup (m : TestMatrix) :
  NoDup (mx_numberServices m) -> NoDup (mx_maxInFlight m) ->
  NoDup (mx_lifetimeType m) -> NoDup (mx_cacheBypass m) ->
  NoDup (cartesianProduct m).
Proof.
  intros H1 H2 H3 H4. unfold cartesianProduct.
  apply Finite.Injective_map_NoDup.
  - intros [ns [mif [lt cb]]] [ns' [mif' [lt' cb']]] [= -> -> -> ->].
    reflexivity.
  - repeat apply NoDup_list_prod; assumption.
Qed.

Lemma cartesianProduct_length (m : TestMatrix) :
  length (cartesianProduct m)
  = length (mx_numberServices m) * length (mx_maxInFlight m)
    * length (mx_lifetimeType m) * length (mx_cacheBypass m).
Proof.
  unfold cartesianProduct. rewrite length_map, !length_prod. lia.
Qed.

(* [main] pairs each case, in order, with the result of its run *)
Lemma runCases_configs (frame : nat) (cases : list TestCase)
    (oracles : list RunOracle) (a : Ambient)
    (results : list (TestCase * RunResult.t)) (a' : Ambient) :
  runCases frame (map Obj cases) oracles a = Done (results, a') ->
  map fst results = cases.
Proof.
  revert frame oracles a results a'.
  induction cases as [|c cases IH]; intros frame oracles a results a'; simpl.
  - intros [= <- <-]. reflexivity.
  - destruct oracles as [|o oracles]; [discriminate|].
    destruct (runTest frame c o a) as [[result a1]| |]; try discriminate.
    destruct (runCases (S frame) (map Obj cases) oracles (awaitRun a1))
      as [[rs a2]| |] eqn:E2; try discriminate.
    intros [= <- <-]. simpl. rewrite (IH _ _ _ _ _ E2). reflexivity.
Qed.

Lemma runCases_returns (frame : nat) (cases : list TestCase)
    (oracles : list RunOracle) (a : Ambient) :
  Forall2 (fun c o => oracleOk c (startTime o) (ticks o) = true) cases oracles ->
  exists r, runCases frame (map Obj cases) oracles a = Done r.
Proof.
  intro F. revert frame a.
  induction F as [|c o cases oracles Ok F IH]; intros frame a; simpl.
  - eexists. reflexivity.
  - destruct (runTest_returns frame c o a Ok) as (s & _ & E & _).
    rewrite E.
    destruct (IH (S frame)
                (awaitRun {| amb_globals := globals (world s);
                             amb_microtasks := microtasks s |}))
      as [[rs a2] E2].
    rewrite E2. eexists. reflexivity.
Qed.

(** C6.  The expanded list of cases is the cartesian product of the four
    axes (first axis slowest), each combination carrying the one fixed
    duration: its length is the product of the axis sizes, it contains
    exactly the combinations of axis values, and each once when no axis
    repeats a value.  The list [main] persists pairs these cases, in this
    order, with their results, so it has the same length; and [main]
    does produce it when every run's oracle lets the run end. *)
Theorem matrix_expansion_is_cartesian_product (m : TestMatrix)
    (oracles : list RunOracle) (a : Ambient) :
  testCasesOf m = map Obj (cartesianProduct m)
  /\ length (testCasesOf m)
     = length (mx_numberServices m) * length (mx_maxInFlight m)
       * length (mx_lifetimeType m) * length (mx_cacheBypass m)
  /\ (forall c,
        In c (cartesianProduct m) <->
        In (numberServices c) (mx_numberServices m)
        /\ In (maxInFlight c) (mx_maxInFlight m)
        /\ In (lifetimeType c) (mx_lifetimeType m)
        /\ In (cacheBypass c) (mx_cacheBypass m)
        /\ numberSeconds c = secondsPerTest)
  /\ (NoDup (mx_numberServices m) -> NoDup (mx_maxInFlight m) ->
      NoDup (mx_lifetimeType m) -> NoDup (mx_cacheBypass m) ->
      NoDup (cartesianProduct m))
  /\ (forall results,
        main m oracles a = Done results ->
        map fst results = cartesianProduct m
        /\ length results
           = length (mx_numberServices m) * length (mx_maxInFlight m)
             * length (mx_lifetimeType m) * length (mx_cacheBypass m))
  /\ (Forall2 (fun c o => oracleOk c (startTime o) (ticks o) = true)
        (cartesianProduct m) oracles ->
      exists results, main m oracles a = Done results).
Proof.
  split; [apply testCasesOf_spec|].
  split; [rewrite testCasesOf_spec, length_map; apply cartesianProduct_length|].
  split; [apply cartesianProduct_In|].
  split; [apply cartesianProduct_NoDup|].
  split.
  - intros results E. unfold main in E. rewrite testCasesOf_spec in E.
    destruct (runCases 0 (map Obj (cartesianProduct m)) oracles a)
      as [[rs a']| |] eqn:R; try discriminate.
    simpl in E. injection E as <-.
    pose proof (runCases_configs _ _ _ _ _ _ R) as C.
    split; [exact C|].
    rewrite <- cartesianProduct_length, <- C, length_map. reflexivity.
  - intro F. unfold main. rewrite testCasesOf_spec.
    destruct (runCases_returns 0 _ _ a F) as [[rs a'] E].
    rewrite E. eexists. reflexivity.
Qed.

(* the script's own matrix: 4 * 1 * 3 * 2 cases, no two alike *)
Lemma testCases_script :
  testCases = map Obj (cartesianProduct testMatrix)
  /\ length testCases = 24
  /\ NoDup (cartesianProduct testMatrix).
Proof.
  split; [apply testCasesOf_spec|]. split; [reflexivity|].
  apply cartesianProduct_NoDup; simpl;
    repeat (constructor; [simpl; intuition discriminate|]); constructor.
Qed.

(** ** The in-flight map and the cap *)

(* In every run the in-flight map at the end of iteration [k + 1] holds
   all [k + 1] requests issued so far: no entry ever leaves it. *)
Lemma inflight_map_never_shrinks (frame : nat) (opts : TestCase)
    (cfg : AwilixConfig) (o : RunOracle) (a : Ambient) (k : nat)
    (s : RunState) :
  nth_error (statesVisited frame opts cfg (startTime o) (ticks o)
               (initialState a)) k = Some s ->
  unresolvedPromises s = inflight (S k)
  /\ JsMap.size (unresolvedPromises s) = S k.
Proof.
  intro H.
  pose proof (statesVisited_nth _ _ _ _ _ _ _ _ H) as R. simpl in R.
  assert (B : Bookkeeping s).
  { assert (F : Forall Bookkeeping
                  (statesVisited frame opts cfg (startTime o) (ticks o)
                     (initialState a))).
    { apply statesVisited_invariant.
      - intros tk s0 b s' B0 E.
        exact (proj1 (iteration_Bookkeeping _ _ _ _ _ _ _ _ E B0)).
      - apply Bookkeeping_initial. }
    rewrite Forall_forall in F. exact (F s (nth_error_In _ _ H)). }
  rewrite (bk_inflight _ B), R. split; [reflexivity|apply length_inflight].
Qed.

Lemma stateAfter_inflight (n : nat) (s : RunState) :
  stateAfter (S n) = Some s ->
  unresolvedPromises s = inflight (S n)
  /\ JsMap.size (unresolvedPromises s) = S n
  /\ requestNumber s = S n.
Proof.
  unfold stateAfter. cbn [pred]. intro H.
  destruct (inflight_map_never_shrinks _ _ _ _ _ _ _ H) as [G1 G2].
  pose proof (statesVisited_nth _ _ _ _ _ _ _ _ H) as R.
  split; [exact G1|]. split; [exact G2|exact R].
Qed.

Lemma observe_iteration_1000 :
  option_map observe (stateAfter 1000)
  = Some {| ob_size := 1000; ob_capHit := true; ob_oldest := Some (1, 0);
            ob_oldestHandle := Some Pending; ob_request1 := Some 0;
            ob_nonePending := false; ob_allPending := true;
            ob_resolved := 0 |}.
Proof. vm_compute. reflexivity. Qed.

Lemma observe_iteration_1001 :
  option_map observe (stateAfter 1001)
  = Some {| ob_size := 1001; ob_capHit := true; ob_oldest := Some (1, 0);
            ob_oldestHandle := Some Fulfilled; ob_request1 := Some 0;
            ob_nonePending := false; ob_allPending := false;
            ob_resolved := 1000 |}.
Proof. vm_compute. reflexivity. Qed.

(** C1 fails on the code.  In the first case of the script's matrix the
    in-flight map reaches [maxInFlight = 1000] entries in iteration 1000.
    The driver marks the cap as hit and awaits the iterator result of
    [unresolvedPromises.entries().next()], an object that is no promise;
    when the loop goes on, the handle of the oldest entry (request 1) is
    still pending, as is every other, and no request has completed. *)
Theorem backpressure_goes_on_while_oldest_pending :
  exists s,
    stateAfter 1000 = Some s
    /\ JsMap.size (unresolvedPromises s) = maxInFlight firstCase
    /\ maxInFlightHit s = true
    /\ JsMap.value (JsMap.entries_next (unresolvedPromises s)) = Some (1, 0)
    /\ promiseState 0 (promises s) = Some Pending
    /\ Forall (fun p => p = Pending) (promises s)
    /\ resolvedResults s = 0.
Proof.
  pose proof observe_iteration_1000 as H.
  destruct (stateAfter 1000) as [s|]; [|discriminate].
  exists s. injection H as H1 H2 H3 H4 _ _ H7 H8.
  repeat split; try assumption.
  apply Forall_forall. intros p Hp.
  rewrite forallb_forall in H7. specialize (H7 p Hp).
  destruct p; [reflexivity|discriminate].
Qed.

(** C2 fails on the code.  In the same run, at the end of iteration 1001
    the first thousand requests have completed: their callbacks ran, the
    completion counter reads 1000 and the handle of request 1 is
    fulfilled.  The entry of request 1 is still in the in-flight map,
    which holds all 1001 requests issued: the callback's
    [unresolvedPromises.delete[requestNumber]] reads a property and
    deletes nothing. *)
Theorem completed_request_stays_in_flight :
  exists s,
    stateAfter 1001 = Some s
    /\ resolvedResults s = 1000
    /\ promiseState 0 (promises s) = Some Fulfilled
    /\ JsMap.get Nat.eqb 1 (unresolvedPromises s) = Some 0
    /\ JsMap.size (unresolvedPromises s) = requestNumber s
    /\ unresolvedPromises s
       <> JsMap.delete Nat.eqb 1 (unresolvedPromises s).
Proof.
  pose proof observe_iteration_1001 as H.
  destruct (stateAfter 1001) as [s|] eqn:E; [|discriminate].
  destruct (stateAfter_inflight 1000 s E) as (G1 & G2 & R).
  exists s. injection H as H1 H2 H3 H4 H5 _ _ H8.
  split; [reflexivity|]. split; [exact H8|]. split; [exact H4|].
  split; [exact H5|]. split; [rewrite G2, R; reflexivity|].
  intro D. apply (f_equal (JsMap.get Nat.eqb 1)) in D.
  rewrite H5, G1 in D.
  change (inflight 1001) with ((1, 0) :: map (fun k => (S k, k)) (seq 1 1000))
    in D.
  cbn [JsMap.delete Nat.eqb] in D.
  assert (N : JsMap.get Nat.eqb 1 (map (fun k => (S k, k)) (seq 1 1000)) = None).
  { apply (get_None_not_key _ _ Nat.eqb Nat.eqb_eq).
    unfold JsMap.keys. rewrite map_map. cbn [fst].
    intro X. apply in_map_iff in X. destruct X as (k & Ek & Hk).
    apply in_seq in Hk. lia. }
  rewrite N in D. discriminate.
Qed.

(** C3 fails on the code.  In the same run the cap, [maxInFlight = 1000],
    is hit in iteration 1000; at the end of iteration 1001, which is
    where iteration 1002 starts, the in-flight map holds 1001 entries.
    This is the defect shown for C2: entries are never removed, so from
    then on the size is the number of requests issued. *)
Theorem inflight_size_exceeds_cap_after_hit :
  (exists s, stateAfter 1000 = Some s /\ maxInFlightHit s = true)
  /\ exists s,
       stateAfter 1001 = Some s
       /\ maxInFlightHit s = true
       /\ JsMap.size (unresolvedPromises s) = 1001
       /\ maxInFlight firstCase < JsMap.size (unresolvedPromises s).
Proof.
  split.
  - pose proof observe_iteration_1000 as H.
    destruct (stateAfter 1000) as [s|]; [|discriminate].
    exists s. injection H as _ H2 _ _ _ _ _ _. split; [reflexivity|exact H2].
  - pose proof observe_iteration_1001 as H.
    destruct (stateAfter 1001) as [s|]; [|discriminate].
    exists s. injection H as H1 H2 _ _ _ _ _ _.
    split; [reflexivity|]. split; [exact H2|]. split; [exact H1|].
    rewrite H1. simpl. lia.
Qed.

(** * Further properties *)

(** ** What one [await] of the driver runs *)

Lemma runJobs_queue (frame : nat) (q1 q2 : list job) (s : RunState) :
  microtasks s = q1 ++ q2 ->
  microtasks (runJobs frame (length q1) s) = q2 ++ flat_map spawned q1
  /\ resolvedResults (runJobs frame (length q1) s)
     = resolvedResults s + ownThens frame q1.
Proof.
  revert q2 s. induction q1 as [|j q1 IH]; intros q2 s E; simpl.
  - rewrite app_nil_r. split; [exact E|unfold ownThens; simpl; lia].
  - rewrite E. simpl.
    assert (E1 : microtasks (exec_job frame j (with_microtasks (q1 ++ q2) s))
                 = q1 ++ (q2 ++ spawned j)).
    { destruct j as [f p|f p]; unfold exec_job; simpl;
        [|destruct (Nat.eqb f frame); simpl]; rewrite <- app_assoc; reflexivity. }
    destruct (IH _ _ E1) as [H1 H2]. rewrite H1, H2.
    split; [rewrite <- app_assoc; reflexivity|].
    unfold ownThens. destruct j as [f p|f p]; unfold exec_job; simpl;
      [lia|]. destruct (Nat.eqb f frame); simpl; lia.
Qed.

Lemma backpressure_queue (frame : nat) (opts : TestCase) (s : RunState) :
  let hit := maxInFlight opts <=? JsMap.size (unresolvedPromises s) in
  microtasks (backpressure frame opts s)
  = (if hit then flat_map spawned (microtasks s) else microtasks s)
  /\ resolvedResults (backpressure frame opts s)
     = resolvedResults s
       + (if hit then ownThens frame (microtasks s) else 0).
Proof.
  unfold backpressure.
  destruct (maxInFlight opts <=? JsMap.size (unresolvedPromises s)); simpl;
    [|split; [reflexivity|lia]].
  unfold awaitValue. cbn [microtasks].
  match goal with
  | |- context [runJobs frame _ ?s1] =>
      destruct (runJobs_queue frame (microtasks s) [] s1) as [H1 H2];
        [simpl; rewrite app_nil_r; reflexivity|]
  end.
  simpl in H1, H2. split; assumption.
Qed.

Lemma filter_own_spawned (frame : nat) (q : list job) :
  filter (ownJob frame) (flat_map spawned q)
  = flat_map spawned (filter (ownJob frame) q).
Proof.
  induction q as [|j q IH]; [reflexivity|].
  simpl. rewrite filter_app, IH.
  destruct j as [f p|f p]; simpl; destruct (Nat.eqb f frame); reflexivity.
Qed.

Lemma ownThens_filter (frame : nat) (q : list job) :
  ownThens frame q = ownThens frame (filter (ownJob frame) q).
Proof.
  unfold ownThens. induction q as [|j q IH]; [reflexivity|].
  destruct j as [f p|f p]; simpl; destruct (Nat.eqb f frame) eqn:E; simpl;
    rewrite ?E; simpl; rewrite IH; reflexivity.
Qed.

Lemma spawned_resumes (frame : nat) (l : list nat) :
  flat_map spawned (map (ResumeMockAction frame) l)
  = map (ThenCallback frame) l.
Proof. induction l as [|x l IH]; simpl; [|rewrite IH]; reflexivity. Qed.

Lemma spawned_thens (frame : nat) (l : list nat) :
  flat_map spawned (map (ThenCallback frame) l) = [].
Proof. induction l as [|x l IH]; simpl; [|rewrite IH]; reflexivity. Qed.

Lemma ownThens_resumes (frame : nat) (l : list nat) :
  ownThens frame (map (ResumeMockAction frame) l) = 0.
Proof. unfold ownThens. induction l as [|x l IH]; simpl; [|rewrite IH]; reflexivity. Qed.

Lemma ownThens_thens (frame : nat) (l : list nat) :
  ownThens frame (map (ThenCallback frame) l) = length l.
Proof.
  unfold ownThens. induction l as [|x l IH]; simpl; [reflexivity|].
  rewrite Nat.eqb_refl. simpl. rewrite IH. reflexivity.
Qed.

Lemma ownThens_app (frame : nat) (q1 q2 : list job) :
  ownThens frame (q1 ++ q2) = ownThens frame q1 + ownThens frame q2.
Proof. unfold ownThens. rewrite filter_app, length_app. reflexivity. Qed.

Lemma ownQueue_step (frame M n : nat) :
  let issued := ownQueueAfter frame M n ++ [ResumeMockAction frame n] in
  (if M <=? S n then flat_map spawned issued else issued)
  = ownQueueAfter frame M (S n)
  /\ completionsAfter M n + (if M <=? S n then ownThens frame issued else 0)
     = completionsAfter M (S n).
Proof.
  unfold ownQueueAfter, completionsAfter.
  destruct (Nat.ltb_spec (S n) (Nat.max 1 M)) as [a|a].
  - (* the cap is still ahead *)
    assert (b : n < Nat.max 1 M) by lia.
    apply Nat.ltb_lt in b. rewrite b.
    assert (c : (M <=? S n) = false) by (apply Nat.leb_gt; lia).
    rewrite c.
    assert (d : (n <=? Nat.max 1 M) = true) by (apply Nat.leb_le; lia).
    assert (e : (S n <=? Nat.max 1 M) = true) by (apply Nat.leb_le; lia).
    rewrite d, e. rewrite seq_S, map_app. split; reflexivity.
  - assert (c : (M <=? S n) = true) by (apply Nat.leb_le; lia).
    rewrite c.
    destruct (Nat.eqb_spec (S n) (Nat.max 1 M)) as [e|e].
    + (* this iteration reaches the cap *)
      assert (b : (n <? Nat.max 1 M) = true) by (apply Nat.ltb_lt; lia).
      assert (d : (n <=? Nat.max 1 M) = true) by (apply Nat.leb_le; lia).
      assert (f : (S n <=? Nat.max 1 M) = true) by (apply Nat.leb_le; lia).
      rewrite b, d, f.
      rewrite flat_map_app, spawned_resumes, ownThens_app, ownThens_resumes.
      rewrite seq_S, map_app. split; reflexivity.
    + assert (f : (S n <=? Nat.max 1 M) = false) by (apply Nat.leb_gt; lia).
      assert (b : (n <? Nat.max 1 M) = false) by (apply Nat.ltb_ge; lia).
      rewrite b, f.
      destruct (Nat.eqb_spec n (Nat.max 1 M)) as [g|g].
      * (* the iteration after the one that reached the cap *)
        assert (d : (n <=? Nat.max 1 M) = true) by (apply Nat.leb_le; lia).
        rewrite d.
        rewrite flat_map_app, spawned_thens, ownThens_app, ownThens_thens,
          length_seq.
        simpl. rewrite Nat.sub_0_r. split; [reflexivity|].
        unfold ownThens. simpl. lia.
      * assert (d : (n <=? Nat.max 1 M) = false) by (apply Nat.leb_gt; lia).
        rewrite d. simpl. rewrite Nat.sub_0_r. split; [reflexivity|].
        unfold ownThens. simpl. rewrite Nat.eqb_refl. simpl. lia.
Qed.

(** ** Loop invariants that follow the iterations run *)

Section LoopHistory.
Variables (frame : nat) (opts : TestCase) (cfg : AwilixConfig) (start : Z).
Variable P : list Tick -> RunState -> Prop.
Hypothesis step : forall hist tk s b s',
  P hist s -> iteration frame opts cfg start tk s = Done (b, s') ->
  P (hist ++ [tk]) s'.

Lemma loop_history (tks hist : list Tick) (s s' : RunState) :
  P hist s ->
  loop frame opts cfg start tks s = Done s' ->
  P (hist ++ executed opts start tks) s'.
Proof.
  revert hist s. induction tks as [|tk tks IH]; intros hist s Hs; simpl;
    [discriminate|].
  destruct (iteration frame opts cfg start tk s) as [[b s1]| |] eqn:E;
    try discriminate.
  pose proof (step _ _ _ _ _ Hs E) as H1.
  destruct (iteration_shape _ _ _ _ _ _ _ _ E) as [-> _].
  destruct (stops opts start tk).
  - intros [= <-]. exact H1.
  - intro L. specialize (IH _ _ H1 L).
    rewrite <- app_assoc in IH. exact IH.
Qed.

End LoopHistory.

Lemma chosenBy_snoc (hist : list Tick) (tk : Tick) :
  chosenBy (hist ++ [tk]) = randomServiceIndex tk :: chosenBy hist.
Proof. unfold chosenBy. rewrite map_app, rev_app_distr. reflexivity. Qed.

Lemma length_chosenBy (tks : list Tick) : length (chosenBy tks) = length tks.
Proof. unfold chosenBy. rewrite length_rev, length_map. reflexivity. Qed.

Lemma resolvingTime_snoc (hist : list Tick) (tk : Tick) :
  resolvingTime (hist ++ [tk])
  = (resolvingTime hist + (resolveEndTime tk - resolveStartTime tk))%Z.
Proof.
  unfold resolvingTime. induction hist as [|x hist IH]; simpl; [lia|].
  rewrite IH. lia.
Qed.

Lemma distinct_le_length (l : list nat) : distinct l <= length l.
Proof.
  unfold distinct. induction l as [|x l IH]; simpl; [apply le_n|].
  destruct (in_dec Nat.eq_dec x l); simpl; lia.
Qed.

Lemma existsb_eqb_In (i : nat) (l : list nat) :
  existsb (Nat.eqb i) l = true <-> In i l.
Proof.
  rewrite existsb_exists. split.
  - intros (x & Hx & E). apply Nat.eqb_eq in E. subst. exact Hx.
  - intro H. exists i. split; [exact H|apply Nat.eqb_refl].
Qed.

(* the hit flag and the logger ids of one resolution step *)
Lemma resolution_details (regs : Registrations) (N : nat) (lt : Lifetime)
    (b : bool) (chosen : list nat) (w : World) (i : nat)
    (v : instance) (hit : bool) (w' : World) :
  registered regs lt N ->
  worldOk lt chosen w ->
  i < N ->
  resolveService regs b (fst (targetContainer lt w)) (mockService i)
                 (snd (targetContainer lt w))
  = Done ((v, hit), w') ->
  hit = hitNow lt b chosen i
  /\ mockLoggerIdCounter (globals w')
     = mockLoggerIdCounter (globals w) + loggersNow lt chosen.
Proof.
  intros R W H. destruct lt; cbn [targetContainer Lifetime_eqb fst snd].
  - simpl in W.
    rewrite (resolveService_transient regs N i b RootContainer w R H W).
    intros [= _ <- <-]. simpl. split; [reflexivity|lia].
  - destruct (resolveService_scoped regs N i b (createScope w) R H eq_refl)
      as [sc E].
    rewrite E. intros [= _ <- <-]. simpl. split; [reflexivity|lia].
  - simpl in W.
    destruct (JsMap.get name_eqb (mockService i) (rootCache w)) as [e|] eqn:Cs.
    + rewrite (resolveService_singleton_cached regs N i b w e R H Cs).
      intros [= _ <- <-].
      assert (Hin : In i chosen).
      { apply (si_service _ _ W). rewrite Cs. discriminate. }
      simpl. rewrite (proj2 (existsb_eqb_In i chosen) Hin), andb_true_r.
      split; [reflexivity|].
      destruct chosen; [destruct Hin|lia].
    + assert (Hnew : ~ In i chosen).
      { intro Hin. apply (si_service _ _ W) in Hin. congruence. }
      assert (Cr : JsMap.get name_eqb (mockRepository i) (rootCache w) = None).
      { destruct (JsMap.get name_eqb (mockRepository i) (rootCache w)) eqn:E;
          [|reflexivity].
        exfalso. apply Hnew. apply (si_repository _ _ W). rewrite E.
        discriminate. }
      assert (Hex : existsb (Nat.eqb i) chosen = false).
      { destruct (existsb (Nat.eqb i) chosen) eqn:E; [|reflexivity].
        apply existsb_eqb_In in E. contradiction. }
      destruct (JsMap.get name_eqb logger (rootCache w)) as [el|] eqn:Cl.
      * rewrite (resolveService_singleton_later regs N i b w el R H Cs Cr Cl).
        intros [= _ <- <-]. simpl. rewrite Hex, andb_false_r.
        split; [reflexivity|].
        assert (Hne : chosen <> []).
        { apply (si_logger _ _ W). rewrite Cl. discriminate. }
        destruct chosen; [congruence|lia].
      * rewrite (resolveService_singleton_first regs N i b w R H Cs Cr Cl).
        intros [= _ <- <-]. simpl. rewrite Hex, andb_false_r.
        split; [reflexivity|].
        destruct chosen as [|c chosen']; [lia|].
        exfalso. assert (X : c :: chosen' <> []) by discriminate.
        apply (si_logger _ _ W) in X. congruence.
Qed.

Lemma hitsAfter_cons (opts : TestCase) (chosen : list nat) (i : nat) :
  hitsAfter opts (i :: chosen)
  = (if hitNow (lifetimeType opts) (cacheBypass opts) chosen i then 1 else 0)
    + hitsAfter opts chosen.
Proof.
  unfold hitsAfter, hitNow. destruct (lifetimeType opts); try reflexivity.
  destruct (cacheBypass opts); [|reflexivity]. simpl andb.
  pose proof (distinct_le_length chosen) as Le.
  destruct (existsb (Nat.eqb i) chosen) eqn:E.
  - apply existsb_eqb_In in E. rewrite (distinct_cons_in i chosen E).
    simpl length. lia.
  - assert (Hn : ~ In i chosen).
    { intro Hin. apply existsb_eqb_In in Hin. congruence. }
    rewrite (distinct_cons_notin i chosen Hn). simpl length. lia.
Qed.

Lemma loggersAfter_cons (opts : TestCase) (chosen : list nat) (i : nat) :
  loggersAfter opts (i :: chosen)
  = loggersAfter opts chosen + loggersNow (lifetimeType opts) chosen.
Proof.
  unfold loggersAfter, loggersNow. destruct (lifetimeType opts); simpl;
    try lia.
  destruct chosen; reflexivity.
Qed.

(** ** The exact state of a run *)

Lemma hitAfter_step (M n : nat) :
  (M <=? S n) || hitAfter M n = hitAfter M (S n).
Proof.
  unfold hitAfter. simpl.
  destruct (Nat.leb_spec M (S n)) as [a|a]; [reflexivity|].
  destruct (Nat.leb_spec M n) as [b|b]; [lia|].
  rewrite andb_false_r. reflexivity.
Qed.

Lemma Exact_initial (opts : TestCase) (a : Ambient) :
  Exact opts (mockLoggerIdCounter (amb_globals a)) [] (initialState a).
Proof.
  split; try reflexivity.
  - apply RunInv_initial.
  - apply Bookkeeping_initial.
  - unfold hitsAfter. simpl.
    destruct (lifetimeType opts); try reflexivity.
    destruct (cacheBypass opts); reflexivity.
  - simpl. unfold loggersAfter. simpl.
    destruct (lifetimeType opts); simpl; lia.
Qed.

Lemma Drained_initial (frame : nat) (opts : TestCase) (a : Ambient) :
  pendingOwn frame (amb_microtasks a) = 0 ->
  Drained frame opts (initialState a).
Proof.
  intro Fresh. split; try reflexivity.
  - apply Bookkeeping_initial.
  - unfold ownQueue, ownQueueAfter.
    cbn [initialState microtasks requestNumber].
    unfold pendingOwn in Fresh. apply length_zero_iff_nil in Fresh.
    rewrite Fresh.
    destruct (Nat.ltb_spec 0 (Nat.max 1 (maxInFlight opts))) as [E|E];
      [reflexivity|lia].
Qed.

(* the size the backpressure check reads *)
Lemma size_at_check (frame : nat) (opts : TestCase) (tk : Tick) (hit : bool)
    (w : World) (s : RunState) :
  Bookkeeping s ->
  JsMap.size (unresolvedPromises (afterIssue frame tk hit w s))
  = S (requestNumber s).
Proof.
  intros [Hi Hp]. cbn [afterIssue unresolvedPromises].
  rewrite Hi, Hp, (set_absent _ _ Nat.eqb _ _ _ (inflight_fresh _)),
    <- inflight_S.
  apply length_inflight.
Qed.

Lemma iteration_Drained (frame : nat) (opts : TestCase) (cfg : AwilixConfig)
    (start : Z) (tk : Tick) (s s' : RunState) (b : bool) :
  Drained frame opts s ->
  iteration frame opts cfg start tk s = Done (b, s') ->
  Drained frame opts s'.
Proof.
  intros [Xb Xq Xc] E.
  destruct (iteration_Bookkeeping _ _ _ _ _ _ _ _ E Xb) as [Bk Rq].
  destruct (iteration_shape _ _ _ _ _ _ _ _ E) as (_ & hit & w & Es).
  set (s2 := afterIssue frame tk hit w s) in *.
  pose proof (size_at_check frame opts tk hit w s Xb) as Sz. fold s2 in Sz.
  destruct (backpressure_queue frame opts s2) as [Q1 Q2].
  rewrite <- Es in Q1, Q2. rewrite Sz in Q1, Q2.
  assert (Own2 : filter (ownJob frame) (microtasks s2)
                 = ownQueueAfter frame (maxInFlight opts) (requestNumber s)
                   ++ [ResumeMockAction frame (requestNumber s)]).
  { unfold s2. simpl. rewrite filter_app. simpl.
    rewrite Nat.eqb_refl, (bk_promises _ Xb). unfold ownQueue in Xq.
    rewrite Xq. reflexivity. }
  destruct (ownQueue_step frame (maxInFlight opts) (requestNumber s))
    as [S1 S2].
  split.
  - exact Bk.
  - unfold ownQueue. rewrite Q1, Rq, <- S1.
    destruct (maxInFlight opts <=? S (requestNumber s)).
    + rewrite filter_own_spawned, Own2. reflexivity.
    + exact Own2.
  - rewrite Q2, Rq, <- S2, <- Xc.
    destruct (maxInFlight opts <=? S (requestNumber s)); [|reflexivity].
    rewrite ownThens_filter, Own2. reflexivity.
Qed.

Lemma iteration_Exact (frame : nat) (opts : TestCase) (id0 : nat) (start : Z)
    (hist : list Tick) (tk : Tick) (s s' : RunState) (b : bool) :
  Exact opts id0 hist s ->
  iteration frame opts
    (generateAwilixConfig (numberServices opts) (lifetimeType opts))
    start tk s
  = Done (b, s') ->
  Exact opts id0 (hist ++ [tk]) s'.
Proof.
  intros [Xr Xb Xf Xh Xm Xi] E.
  pose proof (iteration_Done_in_range _ _ _ _ _ _ E) as Hi.
  pose proof (iteration_RunInv_Done _ _ _ _ _ _ _ _ Xr E) as Ir.
  destruct (iteration_Bookkeeping _ _ _ _ _ _ _ _ E Xb) as [Bk Rq].
  pose proof (generateAwilixConfig_registered (numberServices opts)
                (lifetimeType opts)) as R.
  destruct (resolution_step _ _ _ (cacheBypass opts) (chosenBy hist) (world s)
              _ R (ri_world _ _ _ Xr) Hi)
    as (v & hit & w' & Er & Sh & _).
  destruct (resolution_details _ _ _ _ _ _ _ _ _ _ R (ri_world _ _ _ Xr) Hi Er)
    as [Dh Di].
  pose proof (iteration_of_resolution frame opts _ start tk s
                (mockService (randomServiceIndex tk)) v hit w'
                (nth_mockServiceNames _ _ _ Hi) Er Sh) as E2.
  rewrite E in E2. injection E2 as _ Es.
  set (s2 := afterIssue frame tk hit (logTwice w') s) in *.
  destruct (backpressure_sameFrame frame opts s2) as [a1 _ a3 _ a5 _ _].
  rewrite <- Es in a1, a3, a5.
  pose proof (size_at_check frame opts tk hit (logTwice w') s Xb) as Sz.
  fold s2 in Sz.
  split; rewrite ?chosenBy_snoc.
  - exact Ir.
  - exact Bk.
  - rewrite Rq, Es, backpressure_flag, Sz. unfold s2.
    cbn [afterIssue maxInFlightHit].
    rewrite Xf. apply hitAfter_step.
  - rewrite a3, hitsAfter_cons, <- Dh, <- Xh. unfold s2.
    cbn [afterIssue resolveCacheHits].
    destruct hit; lia.
  - rewrite a5, resolvingTime_snoc, <- Xm. unfold s2. reflexivity.
  - rewrite a1, loggersAfter_cons, Nat.add_assoc, <- Xi. unfold s2.
    cbn [afterIssue world logTwice globals mockLoggerIdCounter].
    rewrite Di.
    destruct (lifetimeType opts); reflexivity.
Qed.

(* the exact counters at the end of a run that returns *)
Lemma runTest_Exact (frame : nat) (opts : TestCase) (o : RunOracle)
    (a : Ambient) (res : RunResult.t) (a' : Ambient) :
  runTest frame opts o a = Done (res, a') ->
  exists s,
    loop frame opts
      (generateAwilixConfig (numberServices opts) (lifetimeType opts))
      (startTime o) (ticks o) (initialState a) = Done s
    /\ res = report o s
    /\ a' = {| amb_globals := globals (world s);
               amb_microtasks := microtasks s |}
    /\ Exact opts (mockLoggerIdCounter (amb_globals a))
             (executed opts (startTime o) (ticks o)) s.
Proof.
  intro E.
  destruct (runTest_Done_inv _ _ _ _ _ _ E) as (s & Ls & -> & -> & _).
  exists s. split; [exact Ls|]. split; [reflexivity|]. split; [reflexivity|].
  apply (loop_history frame opts
           (generateAwilixConfig (numberServices opts) (lifetimeType opts))
           (startTime o)
           (Exact opts (mockLoggerIdCounter (amb_globals a))))
    with (tks := ticks o) (hist := []) (s := initialState a).
  - intros hist tk s0 b s1. apply iteration_Exact.
  - apply Exact_initial.
  - exact Ls.
Qed.


(* the completions at the end of a run and of each of its iterations *)
Lemma loop_Drained (frame : nat) (opts : TestCase) (cfg : AwilixConfig)
    (start : Z) (tks : list Tick) (a : Ambient) :
  pendingOwn frame (amb_microtasks a) = 0 ->
  Forall (Drained frame opts)
    (statesVisited frame opts cfg start tks (initialState a))
  /\ (forall s, loop frame opts cfg start tks (initialState a) = Done s ->
                Drained frame opts s).
Proof.
  intro Fresh. split.
  - apply statesVisited_invariant.
    + intros tk s b s'. apply iteration_Drained.
    + apply Drained_initial. exact Fresh.
  - intro s. apply loop_invariant.
    + intros tk s0 b s'. apply iteration_Drained.
    + apply Drained_initial. exact Fresh.
Qed.

Lemma report_expected (frame : nat) (opts : TestCase) (o : RunOracle)
    (id0 : nat) (s : RunState) :
  Exact opts id0 (executed opts (startTime o) (ticks o)) s ->
  Drained frame opts s ->
  report o s = expectedResult opts o.
Proof.
  intros [Xr Xb Xf Xh Xm Xi] [_ _ Xc].
  pose proof (ri_requests _ _ _ Xr) as Rq. rewrite length_chosenBy in Rq.
  unfold report, expectedResult. cbv zeta.
  rewrite Xf, Xc, Xh, Xm, (ri_logs _ _ _ Xr), Rq.
  f_equal.
  unfold constructionsAfter. rewrite length_chosenBy, <- Rq.
  pose proof (ri_world _ _ _ Xr) as W.
  destruct (lifetimeType opts) eqn:L.
  - exact (proj1 (ri_transient _ _ _ Xr L)).
  - exact (proj1 (ri_scoped _ _ _ Xr L)).
  - simpl in W. exact (si_count _ _ W).
Qed.

(* the result of a run that returns, in closed form *)
Lemma runTest_expected (frame : nat) (opts : TestCase) (o : RunOracle)
    (a : Ambient) (res : RunResult.t) (a' : Ambient) :
  pendingOwn frame (amb_microtasks a) = 0 ->
  runTest frame opts o a = Done (res, a') ->
  res = expectedResult opts o.
Proof.
  intros Fresh E.
  destruct (runTest_Exact _ _ _ _ _ _ E) as (s & Ls & -> & _ & X).
  apply (report_expected frame _ _ _ _ X).
  exact (proj2 (loop_Drained frame opts _ _ _ a Fresh) s Ls).
Qed.

(** ** The registrations, once more *)

Lemma get_In (nm : name) (r : Resolver) (m : Registrations) :
  JsMap.get name_eqb nm m = Some r -> In (nm, r) m.
Proof.
  induction m as [|[k v] m IH]; simpl; [discriminate|].
  destruct (name_eqb nm k) eqn:E.
  - apply name_eqb_eq in E. subst. intros [= <-]. left. reflexivity.
  - intro H. right. exact (IH H).
Qed.

Lemma get_repositories_notin (lt : Lifetime) (i : nat) (l : list nat) :
  ~ In i l ->
  JsMap.get name_eqb (mockRepository i)
    (map (fun index => (mockRepository index, asFunction mockRepositoryFn lt)) l)
  = None.
Proof.
  induction l as [|a l IH]; simpl; [reflexivity|].
  intro H. destruct (Nat.eqb_spec i a) as [->|Ne]; [tauto|].
  apply IH. tauto.
Qed.

Lemma get_services_notin (lt : Lifetime) (i : nat) (l : list nat) :
  ~ In i l ->
  JsMap.get name_eqb (mockService i)
    (map (fun index =>
            (mockService index,
             asFunction (mockServiceFn (mockRepository index)) lt)) l)
  = None.
Proof.
  induction l as [|a l IH]; simpl; [reflexivity|].
  intro H. destruct (Nat.eqb_spec i a) as [->|Ne]; [tauto|].
  apply IH. tauto.
Qed.

(** X1.  [generateAwilixConfig] registers [2 * n + 1] entries under names
    that are all different, every one with the lifetime asked for: a
    repository and a service for each index below [n], the service's
    factory naming the repository of its own index, and the logger.  The
    names it returns are those of the services, in index order. *)
Theorem generateAwilixConfig_registrations (n : nat) (lt : Lifetime) :
  let cfg := generateAwilixConfig n lt in
  JsMap.size (container cfg) = 2 * n + 1
  /\ NoDup (JsMap.keys (container cfg))
  /\ mockServiceNames cfg = map mockService (seq 0 n)
  /\ (forall nm r,
        JsMap.get name_eqb nm (container cfg) = Some r -> lifetime r = lt)
  /\ (forall i,
        JsMap.get name_eqb (mockService i) (container cfg)
        = if i <? n
          then Some (asFunction (mockServiceFn (mockRepository i)) lt)
          else None)
  /\ (forall i,
        JsMap.get name_eqb (mockRepository i) (container cfg)
        = if i <? n then Some (asFunction mockRepositoryFn lt) else None)
  /\ JsMap.get name_eqb logger (container cfg)
     = Some (asFunction loggerFn lt).
Proof.
  intro cfg. split; [|split; [|split; [|split; [|split; [|split]]]]].
  - unfold cfg, generateAwilixConfig, JsMap.size. simpl.
    rewrite !length_app, !length_map, length_seq. simpl. lia.
  - unfold cfg, generateAwilixConfig, JsMap.keys. simpl.
    rewrite !map_app, !map_map. simpl.
    apply NoDup_app; [| apply NoDup_app |].
    + apply Injective_map_NoDup; [intros x y [= E]; exact E|apply seq_NoDup].
    + apply Injective_map_NoDup; [intros x y [= E]; exact E|apply seq_NoDup].
    + constructor; [intros []|constructor].
    + intros a H1 H2. apply in_map_iff in H1. destruct H1 as (x & <- & _).
      destruct H2 as [H2|[]]. discriminate.
    + intros a H1 H2. apply in_map_iff in H1. destruct H1 as (x & <- & _).
      apply in_app_or in H2. destruct H2 as [H2|[H2|[]]]; [|discriminate].
      apply in_map_iff in H2. destruct H2 as (y & E & _). discriminate.
  - apply mockServiceNames_spec.
  - intros nm r H. apply get_In in H.
    unfold cfg, generateAwilixConfig in H. simpl in H.
    apply in_app_or in H. destruct H as [H|H].
    + apply in_map_iff in H. destruct H as (x & [= _ <-] & _). reflexivity.
    + apply in_app_or in H. destruct H as [H|[H|[]]].
      * apply in_map_iff in H. destruct H as (x & [= _ <-] & _). reflexivity.
      * injection H as _ <-. reflexivity.
  - intro i. destruct (Nat.ltb_spec i n) as [L|L].
    + apply registered_service. exact L.
    + unfold cfg, generateAwilixConfig. simpl.
      rewrite !get_app, get_repositories_other by (intros; discriminate).
      rewrite get_services_notin by (rewrite in_seq; lia).
      reflexivity.
  - intro i. destruct (Nat.ltb_spec i n) as [L|L].
    + apply registered_repository. exact L.
    + unfold cfg, generateAwilixConfig. simpl.
      rewrite !get_app, get_repositories_notin by (rewrite in_seq; lia).
      rewrite get_services_other by (intros; discriminate).
      reflexivity.
  - apply registered_logger.
Qed.

(** ** The depth of the flattening *)

(* [arr.flat(0)] is a copy of [arr] *)
Lemma flat_zero (l : list jsval) : flat 0 l = l.
Proof.
  induction l as [|v l IH]; [reflexivity|].
  change (flat 0 (v :: l))
    with ((match v with Arr _ => [v] | Obj _ => [v] end) ++ flat 0 l).
  rewrite IH. destruct v; reflexivity.
Qed.

Lemma Forall_flat_map {A B : Type} (P : B -> Prop) (f : A -> list B)
    (l : list A) :
  (forall x, Forall P (f x)) -> Forall P (flat_map f l).
Proof.
  intro H. induction l as [|x l IH]; simpl; [constructor|].
  apply Forall_app. split; [apply H|exact IH].
Qed.

Lemma Forall_arrays {A : Type} (f : A -> list jsval) (l : list A) :
  Forall isArray (map (fun x => Arr (f x)) l).
Proof.
  induction l as [|x l IH]; simpl; constructor; [eexists; reflexivity|exact IH].
Qed.

(** X2.  Any flattening depth of three or more turns the nested maps of
    lines 29-38 into the list of cases (the script's 4 is one more than
    the nesting needs); a depth below three leaves a list of arrays, none
    of which is a case. *)
Theorem flat_depth_three_suffices (m : TestMatrix) :
  (forall k, flat (3 + k) (nestedCases m) = map Obj (cartesianProduct m))
  /\ (forall d, d < 3 -> Forall isArray (flat d (nestedCases m))).
Proof.
  split.
  - intro k. unfold nestedCases, cartesianProduct.
    etransitivity.
    + apply (flat_axis (2 + k) _
               (fun ns q =>
                  {| numberServices := ns; maxInFlight := fst q;
                     lifetimeType := fst (snd q); cacheBypass := snd (snd q);
                     numberSeconds := secondsPerTest |})).
      intro ns.
      apply (flat_axis (1 + k) _
               (fun mif p =>
                  {| numberServices := ns; maxInFlight := mif;
                     lifetimeType := fst p; cacheBypass := snd p;
                     numberSeconds := secondsPerTest |})).
      intro mif.
      apply (flat_axis k _
               (fun lt cb =>
                  {| numberServices := ns; maxInFlight := mif;
                     lifetimeType := lt; cacheBypass := cb;
                     numberSeconds := secondsPerTest |})).
      intro lt. rewrite flat_objects, map_map. reflexivity.
    + f_equal. apply map_ext. intros [ns [mif [lt cb]]]. reflexivity.
  - intros d Hd. unfold nestedCases.
    destruct d as [|[|[|d]]]; [| | |lia].
    + rewrite flat_zero. apply Forall_arrays.
    + rewrite flat_arrays. apply Forall_flat_map. intro ns.
      rewrite flat_zero. apply Forall_arrays.
    + rewrite flat_arrays. apply Forall_flat_map. intro ns.
      rewrite flat_arrays. apply Forall_flat_map. intro mif.
      rewrite flat_zero. apply Forall_arrays.
Qed.

(** ** How many requests a run issues *)

Lemma executed_split (opts : TestCase) (start : Z) (tks : list Tick) :
  oracleOk opts start tks = true ->
  exists pre last post,
    tks = pre ++ last :: post
    /\ Forall (fun tk => stops opts start tk = false) pre
    /\ stops opts start last = true
    /\ executed opts start tks = pre ++ [last].
Proof.
  induction tks as [|tk tks IH]; simpl; [discriminate|].
  intro Ok. apply andb_true_iff in Ok. destruct Ok as [_ Ok].
  destruct (stops opts start tk) eqn:St.
  - exists [], tk, tks. repeat split; [constructor|exact St].
  - simpl in Ok. destruct (IH Ok) as (pre & last & post & -> & F & L & E).
    exists (tk :: pre), last, post. rewrite E.
    repeat split; [constructor; assumption|exact L].
Qed.

(** X3.  A run that returns has issued one request per clock check up to
    and including the first that finds the budget exceeded: the checks
    before it were within the budget, and the iteration that finds it
    exceeded is counted.  So at least one request is always issued. *)
Theorem requests_issued_until_budget_exceeded (frame : nat) (opts : TestCase)
    (o : RunOracle) (a : Ambient) (res : RunResult.t) (a' : Ambient) :
  runTest frame opts o a = Done (res, a') ->
  exists pre last post,
    ticks o = pre ++ last :: post
    /\ Forall (fun tk =>
                 (checkTime tk - startTime o <= 1000 * numberSeconds opts)%Z)
         pre
    /\ (1000 * numberSeconds opts < checkTime last - startTime o)%Z
    /\ RunResult.requestNumber res = S (length pre).
Proof.
  intro E.
  destruct (runTest_Done_inv _ _ _ _ _ _ E) as (s & Ls & -> & _ & I).
  pose proof (loop_Done_oracleOk _ _ _ _ _ _ Ls) as Ok.
  destruct (executed_split _ _ _ Ok) as (pre & last & post & Et & F & L & Ex).
  exists pre, last, post. split; [exact Et|]. split; [|split].
  - eapply Forall_impl; [|exact F]. intros tk H. unfold stops in H.
    apply Z.ltb_ge in H. exact H.
  - unfold stops in L. apply Z.ltb_lt in L. exact L.
  - cbn [report RunResult.requestNumber].
    rewrite (ri_requests _ _ _ I), length_chosenBy, Ex, length_app. simpl. lia.
Qed.

Lemma requests_issued_until_budget_exceeded_witness :
  exists res a',
    runTest 0 scopedCase threeRequests scriptStart = Done (res, a')
    /\ exists pre last post,
         ticks threeRequests = pre ++ last :: post
         /\ Forall (fun tk =>
                      (checkTime tk - startTime threeRequests
                       <= 1000 * numberSeconds scopedCase)%Z) pre
         /\ (1000 * numberSeconds scopedCase
             < checkTime last - startTime threeRequests)%Z
         /\ RunResult.requestNumber res = S (length pre).
Proof.
  do 2 eexists. split; [vm_compute; reflexivity|].
  eapply (requests_issued_until_budget_exceeded 0 scopedCase threeRequests
            scriptStart).
  vm_compute. reflexivity.
Defined.

(** ** The cap flag and the completions *)




(** ** The in-flight map *)

Lemma inflight_keys (n : nat) : JsMap.keys (inflight n) = seq 1 n.
Proof.
  unfold JsMap.keys, inflight. rewrite map_map. simpl.
  apply seq_shift.
Qed.

Lemma inflight_get (n r : nat) :
  JsMap.get Nat.eqb r (inflight n)
  = if (1 <=? r) && (r <=? n) then Some (r - 1) else None.
Proof.
  induction n as [|n IH].
  - cbn [inflight seq map JsMap.get].
    destruct (Nat.leb_spec 1 r) as [a|a];
      destruct (Nat.leb_spec r 0) as [b|b]; try reflexivity; lia.
  - rewrite inflight_S, (get_app _ _ Nat.eqb), IH.
    cbn [JsMap.get].
    destruct (Nat.leb_spec 1 r) as [a|a];
      destruct (Nat.leb_spec r n) as [b|b];
      destruct (Nat.leb_spec r (S n)) as [c|c];
      destruct (Nat.eqb_spec r (S n)) as [e|e];
      cbn [andb]; try reflexivity; try lia.
    subst r. cbn [Nat.sub]. rewrite Nat.sub_0_r. reflexivity.
Qed.

(** X6.  The in-flight map only grows: at the end of the iteration
    numbered [k + 1] its keys are the request numbers [1 .. k + 1] in
    order of issue, its size is [k + 1], and looking up any request
    number issued so far finds the handle made for that request. *)
Theorem inflight_map_holds_every_request (frame : nat) (opts : TestCase)
    (cfg : AwilixConfig) (o : RunOracle) (a : Ambient) (k : nat)
    (s : RunState) :
  nth_error (statesVisited frame opts cfg (startTime o) (ticks o)
               (initialState a)) k = Some s ->
  JsMap.keys (unresolvedPromises s) = seq 1 (S k)
  /\ JsMap.size (unresolvedPromises s) = requestNumber s
  /\ (forall r, 1 <= r <= S k ->
        JsMap.get Nat.eqb r (unresolvedPromises s) = Some (r - 1))
  /\ (forall r, S k < r ->
        JsMap.get Nat.eqb r (unresolvedPromises s) = None).
Proof.
  intro H.
  destruct (inflight_map_never_shrinks _ _ _ _ _ _ _ H) as [E Sz].
  pose proof (statesVisited_nth _ _ _ _ _ _ _ _ H) as Rq. simpl in Rq.
  rewrite E. split; [apply inflight_keys|]. split; [|split].
  - rewrite Rq. apply length_inflight.
  - intros r [a1 a2]. rewrite inflight_get.
    apply Nat.leb_le in a1, a2. rewrite a1, a2. reflexivity.
  - intros r a1. rewrite inflight_get.
    apply Nat.leb_gt in a1. rewrite a1, andb_false_r. reflexivity.
Qed.

Lemma inflight_map_holds_every_request_witness :
  exists s,
    nth_error (statesVisited 0 scopedCase (generateAwilixConfig 50 SCOPED)
                 (startTime threeRequests) (ticks threeRequests)
                 (initialState scriptStart)) 2 = Some s
    /\ JsMap.keys (unresolvedPromises s) = seq 1 3
    /\ JsMap.size (unresolvedPromises s) = requestNumber s
    /\ (forall r, 1 <= r <= 3 ->
          JsMap.get Nat.eqb r (unresolvedPromises s) = Some (r - 1))
    /\ (forall r, 3 < r ->
          JsMap.get Nat.eqb r (unresolvedPromises s) = None).
Proof.
  eexists. split; [vm_compute; reflexivity|].
  eapply (inflight_map_holds_every_request 0 scopedCase
            (generateAwilixConfig 50 SCOPED) threeRequests scriptStart 2).
  vm_compute. reflexivity.
Defined.

(** ** Constructions, cache hits and logger ids by lifetime *)



(** X8.  The cache-hit counter counts the requests for a service that an
    earlier request of the run had already chosen, and only under the
    SINGLETON lifetime with the bypass enabled: there the hits and the
    number of different services chosen add up to the requests issued.
    With the bypass disabled, or under the other two lifetimes, the
    counter is zero. *)
Theorem cache_hits_count_repeated_services (frame : nat) (opts : TestCase)
    (o : RunOracle) (a : Ambient) (res : RunResult.t) (a' : Ambient) :
  runTest frame opts o a = Done (res, a') ->
  let chosen := chosenBy (executed opts (startTime o) (ticks o)) in
  (lifetimeType opts = SINGLETON -> cacheBypass opts = true ->
   RunResult.resolveCacheHits res + distinct chosen
   = RunResult.requestNumber res)
  /\ (cacheBypass opts = false -> RunResult.resolveCacheHits res = 0)
  /\ (lifetimeType opts <> SINGLETON -> RunResult.resolveCacheHits res = 0).
Proof.
  intros E chosen.
  destruct (runTest_Exact _ _ _ _ _ _ E) as (s & _ & -> & _ & X).
  cbn [report RunResult.resolveCacheHits RunResult.requestNumber].
  rewrite (ex_hits _ _ _ _ X), (ri_requests _ _ _ (ex_run _ _ _ _ X)).
  fold chosen. unfold hitsAfter.
  pose proof (distinct_le_length chosen) as Le.
  split; [|split].
  - intros -> ->. lia.
  - intros ->. destruct (lifetimeType opts); reflexivity.
  - intro N. destruct (lifetimeType opts); try reflexivity. congruence.
Qed.

Lemma cache_hits_count_repeated_services_witness :
  exists res a',
    runTest 0 singletonBypassCase sameServiceThrice scriptStart
    = Done (res, a')
    /\ RunResult.resolveCacheHits res = 2
    /\ (lifetimeType singletonBypassCase = SINGLETON ->
        cacheBypass singletonBypassCase = true ->
        RunResult.resolveCacheHits res
        + distinct (chosenBy (executed singletonBypassCase
                                (startTime sameServiceThrice)
                                (ticks sameServiceThrice)))
        = RunResult.requestNumber res).
Proof.
  do 2 eexists. split; [vm_compute; reflexivity|]. split; [reflexivity|].
  eapply (cache_hits_count_repeated_services 0 singletonBypassCase
            sameServiceThrice scriptStart).
  vm_compute. reflexivity.
Defined.

(** X9.  [mockLoggerIdCounter] is the one global a run does not reset: a
    run leaves it raised by the number of loggers it constructed, which
    is two per request under TRANSIENT, one per request under SCOPED and
    one in all under SINGLETON.  So logger ids go on from run to run. *)
Theorem logger_id_counter_is_not_reset (frame : nat) (opts : TestCase)
    (o : RunOracle) (a : Ambient) (res : RunResult.t) (a' : Ambient) :
  runTest frame opts o a = Done (res, a') ->
  mockLoggerIdCounter (amb_globals a) < mockLoggerIdCounter (amb_globals a')
  /\ (lifetimeType opts = TRANSIENT ->
      mockLoggerIdCounter (amb_globals a')
      = mockLoggerIdCounter (amb_globals a) + 2 * RunResult.requestNumber res)
  /\ (lifetimeType opts = SCOPED ->
      mockLoggerIdCounter (amb_globals a')
      = mockLoggerIdCounter (amb_globals a) + RunResult.requestNumber res)
  /\ (lifetimeType opts = SINGLETON ->
      mockLoggerIdCounter (amb_globals a')
      = mockLoggerIdCounter (amb_globals a) + 1).
Proof.
  intro E.
  destruct (runTest_Exact _ _ _ _ _ _ E) as (s & Ls & -> & -> & X).
  cbn [report RunResult.requestNumber amb_globals].
  rewrite (ex_ids _ _ _ _ X).
  pose proof (ri_requests _ _ _ (ex_run _ _ _ _ X)) as Rq.
  destruct (oracleOk_executed _ _ _ (loop_Done_oracleOk _ _ _ _ _ _ Ls))
    as [Ne _].
  apply chosenBy_nonempty in Ne.
  unfold loggersAfter.
  destruct (chosenBy (executed opts (startTime o) (ticks o))) as [|c l] eqn:C;
    [congruence|].
  rewrite Rq. simpl length.
  destruct (lifetimeType opts); repeat split; try discriminate; intros; lia.
Qed.

Lemma logger_id_counter_is_not_reset_witness :
  exists res a',
    runTest 0 transientCase oneRequest scriptStart = Done (res, a')
    /\ mockLoggerIdCounter (amb_globals scriptStart)
       < mockLoggerIdCounter (amb_globals a')
    /\ (lifetimeType transientCase = TRANSIENT ->
        mockLoggerIdCounter (amb_globals a')
        = mockLoggerIdCounter (amb_globals scriptStart)
          + 2 * RunResult.requestNumber res)
    /\ (lifetimeType transientCase = SCOPED ->
        mockLoggerIdCounter (amb_globals a')
        = mockLoggerIdCounter (amb_globals scriptStart)
          + RunResult.requestNumber res)
    /\ (lifetimeType transientCase = SINGLETON ->
        mockLoggerIdCounter (amb_globals a')
        = mockLoggerIdCounter (amb_globals scriptStart) + 1).
Proof.
  do 2 eexists. split; [vm_compute; reflexivity|].
  eapply (logger_id_counter_is_not_reset 0 transientCase oneRequest
            scriptStart).
  vm_compute. reflexivity.
Defined.

(** ** The time spent resolving *)

Lemma resolvingTime_bounded (prev : Z) (tks : list Tick) (last : Z) :
  clockMonotone prev tks last ->
  (0 <= resolvingTime tks <= last - prev)%Z.
Proof.
  unfold resolvingTime.
  revert prev. induction tks as [|tk tks IH]; intros prev; simpl.
  - lia.
  - intros (a1 & a2 & a3 & a4). specialize (IH _ a4). lia.
Qed.

(** X10.  The resolving time a run reports is the sum, over the requests
    it issued, of the two clock readings taken around each resolution.
    When the clock never went back between the readings of the run, it
    is not negative and not more than the total time reported. *)
Theorem resolving_time_is_sum_within_total (frame : nat) (opts : TestCase)
    (o : RunOracle) (a : Ambient) (res : RunResult.t) (a' : Ambient) :
  runTest frame opts o a = Done (res, a') ->
  RunResult.totalSecondsResolving res
  = resolvingTime (executed opts (startTime o) (ticks o))
  /\ (clockMonotone (startTime o) (executed opts (startTime o) (ticks o))
        (endTime o) ->
      (0 <= RunResult.totalSecondsResolving res
       <= RunResult.totalSeconds res)%Z).
Proof.
  intro E.
  destruct (runTest_Exact _ _ _ _ _ _ E) as (s & _ & -> & _ & X).
  cbn [report RunResult.totalSecondsResolving RunResult.totalSeconds].
  rewrite (ex_ms _ _ _ _ X). split; [reflexivity|].
  apply resolvingTime_bounded.
Qed.

Lemma resolving_time_is_sum_within_total_witness :
  exists res a',
    runTest 0 singletonBypassCase fiveRequests scriptStart = Done (res, a')
    /\ clockMonotone (startTime fiveRequests)
         (executed singletonBypassCase (startTime fiveRequests)
            (ticks fiveRequests)) (endTime fiveRequests)
    /\ RunResult.totalSecondsResolving res = 4%Z
    /\ (0 <= RunResult.totalSecondsResolving res
        <= RunResult.totalSeconds res)%Z.
Proof.
  do 2 eexists. split; [vm_compute; reflexivity|].
  assert (M : clockMonotone (startTime fiveRequests)
                (executed singletonBypassCase (startTime fiveRequests)
                   (ticks fiveRequests)) (endTime fiveRequests)).
  { vm_compute. repeat split; discriminate. }
  split; [exact M|]. split; [reflexivity|].
  apply (resolving_time_is_sum_within_total 0 singletonBypassCase fiveRequests
           scriptStart _ {| amb_globals := {| totalDiInitializations := 5;
                                              mockLoggerIdCounter := 2;
                                              numberLogs := 10 |};
                            amb_microtasks := [ResumeMockAction 0 0;
                                               ResumeMockAction 0 1;
                                               ResumeMockAction 0 2;
                                               ResumeMockAction 0 3;
                                               ResumeMockAction 0 4] |});
    [vm_compute; reflexivity|exact M].
Defined.

(** ** Runs that throw *)

(** X11.  A run throws at the first request whose drawn index names no
    service.  With [numberServices = 0] that is the first request of any
    run, whatever the lifetime and the bypass: no service is registered,
    the name picked is [undefined], and nothing is reported. *)
Theorem run_without_service_to_pick_throws (frame : nat) (opts : TestCase)
    (o : RunOracle) (a : Ambient) (tk : Tick) (rest : list Tick) :
  ticks o = tk :: rest ->
  numberServices opts <= randomServiceIndex tk ->
  mockServiceNames
    (generateAwilixConfig (numberServices opts) (lifetimeType opts))
  = map mockService (seq 0 (numberServices opts))
  /\ runTest frame opts o a = Threw.
Proof.
  intros Et Hi. split; [apply mockServiceNames_spec|].
  unfold runTest. rewrite Et. cbn [loop].
  unfold iteration, resolveRequest.
  destruct (targetContainer _ _) as [target w0].
  assert (N : nth_error
                (mockServiceNames
                   (generateAwilixConfig (numberServices opts)
                                         (lifetimeType opts)))
                (randomServiceIndex tk) = None).
  { apply nth_error_None.
    rewrite mockServiceNames_spec, length_map, length_seq. exact Hi. }
  rewrite N. reflexivity.
Qed.

Lemma run_without_service_to_pick_throws_witness :
  ticks oneRequest = [tickAt 7 3001]
  /\ numberServices (caseOf 0 SCOPED true) <= randomServiceIndex (tickAt 7 3001)
  /\ runTest 0 (caseOf 0 SCOPED true) oneRequest scriptStart = Threw.
Proof.
  split; [reflexivity|]. split; [apply Nat.le_0_l|].
  apply (run_without_service_to_pick_throws 0 (caseOf 0 SCOPED true)
           oneRequest scriptStart (tickAt 7 3001) [] eq_refl (Nat.le_0_l _)).
Defined.

(** ** The results [main] persists *)

Lemma runCases_expected (frame : nat) (cases : list TestCase)
    (oracles : list RunOracle) (a : Ambient)
    (results : list (TestCase * RunResult.t)) (a' : Ambient) :
  framesBelow frame (amb_microtasks a) ->
  runCases frame (map Obj cases) oracles a = Done (results, a') ->
  results
  = map (fun co => (fst co, expectedResult (fst co) (snd co)))
        (combine cases oracles).
Proof.
  revert frame oracles a results a'.
  induction cases as [|c cases IH]; intros frame oracles a results a' F; simpl.
  - intros [= <- <-]. reflexivity.
  - destruct oracles as [|o oracles]; [discriminate|].
    destruct (runTest frame c o a) as [[result a1]| |] eqn:E;
      try discriminate.
    destruct (runCases (S frame) (map Obj cases) oracles (awaitRun a1))
      as [[rs a2]| |] eqn:E2; try discriminate.
    intros [= <- <-]. simpl.
    rewrite (runTest_expected frame c o a result a1
               (framesBelow_fresh _ _ F) E).
    rewrite (IH (S frame) oracles (awaitRun a1) rs a2
               (awaitRun_framesBelow _ _ (runTest_framesBelow _ _ _ _ _ _ F E))
               E2).
    reflexivity.
Qed.

(** X12.  When [main] starts with no job queued, the list it persists
    pairs each case of the matrix, in order, with a result that is a
    function of that case and of what that one run read from the clock
    and the random source.  No run's result depends on the runs before
    it: not through the globals, the container, the in-flight map or the
    jobs earlier runs left on the microtask queue. *)
Theorem main_results_depend_on_own_run_only (m : TestMatrix)
    (oracles : list RunOracle) (a : Ambient)
    (results : list (TestCase * RunResult.t)) :
  amb_microtasks a = [] ->
  main m oracles a = Done results ->
  results
  = map (fun co => (fst co, expectedResult (fst co) (snd co)))
        (combine (cartesianProduct m) oracles).
Proof.
  intros Q E. unfold main in E. rewrite testCasesOf_spec in E.
  destruct (runCases 0 (map Obj (cartesianProduct m)) oracles a)
    as [[rs a']| |] eqn:R; try discriminate.
  simpl in E. injection E as <-.
  apply (runCases_expected 0 _ _ a rs a'); [|exact R].
  unfold framesBelow. rewrite Q. constructor.
Qed.

Lemma main_results_depend_on_own_run_only_witness :
  amb_microtasks scriptStart = []
  /\ exists results,
       main smallMatrix (repeat fiveRequests 4) scriptStart = Done results
       /\ results
          = map (fun co => (fst co, expectedResult (fst co) (snd co)))
                (combine (cartesianProduct smallMatrix)
                         (repeat fiveRequests 4)).
Proof.
  split; [reflexivity|].
  eexists. split; [vm_compute; reflexivity|].
  apply (main_results_depend_on_own_run_only smallMatrix
           (repeat fiveRequests 4) scriptStart _ eq_refl).
  vm_compute. reflexivity.
Defined.

(** ** The objects a request gets *)

Lemma resolveService_scoped_entry (regs : Registrations) (N i : nat)
    (b : bool) (w : World) :
  registered regs SCOPED N ->
  i < N ->
  scopeCache w = [] ->
  exists sc v e,
    resolveService regs b ChildScope (mockService i) w
    = Done ((v, false),
            {| globals := bumpGlobals 3 1 (globals w);
               rootCache := rootCache w;
               scopeCache := sc |})
    /\ JsMap.get name_eqb (mockService i) sc = Some e
    /\ ce_value e = v.
Proof.
  intros R H C.
  unfold resolveService, resolutionDepth.
  destruct b; crunch R H ltac:(rewrite C);
    do 3 eexists; (split; [reflexivity|]);
    (split; [cbn; rewrite Nat.eqb_refl; reflexivity|reflexivity]).
Qed.

Lemma resolveService_scoped_cached (regs : Registrations) (N i : nat)
    (b : bool) (w : World) (e : CacheEntry) :
  registered regs SCOPED N ->
  i < N ->
  JsMap.get name_eqb (mockService i) (scopeCache w) = Some e ->
  resolveService regs b ChildScope (mockService i) w
  = Done ((ce_value e, b), w).
Proof.
  intros R H C.
  unfold resolveService, resolutionDepth.
  destruct b; crunch R H ltac:(rewrite C); reflexivity.
Qed.

(** X13.  What a request for a service not requested before gets depends
    on the lifetime in how its loggers are shared.  Under TRANSIENT the
    service and its repository hold two loggers, made one after the
    other; under SCOPED they hold one logger, made for this request;
    under SINGLETON they hold one logger, the run's. *)
Theorem logger_is_shared_unless_transient (regs : Registrations) (N : nat)
    (lt : Lifetime) (b : bool) (chosen : list nat) (w : World) (i : nat) :
  registered regs lt N ->
  worldOk lt chosen w ->
  i < N ->
  ~ In i chosen ->
  exists l1 l2 w',
    resolveService regs b (fst (targetContainer lt w)) (mockService i)
                   (snd (targetContainer lt w))
    = Done ((MockServiceLayer (MockLogger l1)
               (MockRepositoryLayer (MockLogger l2)), false), w')
    /\ (lt = TRANSIENT ->
        l1 = mockLoggerIdCounter (globals w) /\ l2 = S l1)
    /\ (lt = SCOPED ->
        l1 = mockLoggerIdCounter (globals w) /\ l2 = l1)
    /\ (lt = SINGLETON ->
        l2 = l1
        /\ forall el,
             JsMap.get name_eqb logger (rootCache w) = Some el ->
             ce_value el = MockLogger l1).
Proof.
  intros R W H Hnew. destruct lt; cbn [targetContainer Lifetime_eqb fst snd].
  - simpl in W.
    rewrite (resolveService_transient regs N i b RootContainer w R H W).
    do 3 eexists. split; [reflexivity|].
    split; [intros _; split; reflexivity|]. split; discriminate.
  - destruct (resolveService_scoped regs N i b (createScope w) R H eq_refl)
      as [sc E].
    rewrite E. do 3 eexists. split; [reflexivity|].
    split; [discriminate|]. split; [intros _; split; reflexivity|discriminate].
  - simpl in W.
    assert (Cs : JsMap.get name_eqb (mockService i) (rootCache w) = None).
    { destruct (JsMap.get name_eqb (mockService i) (rootCache w)) eqn:E;
        [|reflexivity].
      exfalso. apply Hnew. apply (si_service _ _ W). rewrite E. discriminate. }
    assert (Cr : JsMap.get name_eqb (mockRepository i) (rootCache w) = None).
    { destruct (JsMap.get name_eqb (mockRepository i) (rootCache w)) eqn:E;
        [|reflexivity].
      exfalso. apply Hnew. apply (si_repository _ _ W). rewrite E.
      discriminate. }
    destruct (JsMap.get name_eqb logger (rootCache w)) as [el|] eqn:Cl.
    + rewrite (resolveService_singleton_later regs N i b w el R H Cs Cr Cl).
      destruct (si_shape_logger _ _ W _ Cl) as [k Hk]. rewrite Hk.
      do 3 eexists. split; [reflexivity|].
      split; [discriminate|]. split; [discriminate|].
      intros _. split; [reflexivity|].
      intros el' [= <-]. exact Hk.
    + rewrite (resolveService_singleton_first regs N i b w R H Cs Cr Cl).
      do 3 eexists. split; [reflexivity|].
      split; [discriminate|]. split; [discriminate|].
      intros _. split; [reflexivity|]. intros el' X. discriminate.
Qed.

Lemma logger_is_shared_unless_transient_witness :
  registered (container (generateAwilixConfig 50 SCOPED)) SCOPED 50
  /\ worldOk SCOPED [] (world (initialState scriptStart))
  /\ 7 < 50
  /\ ~ In 7 []
  /\ exists l1 l2 w',
       resolveService (container (generateAwilixConfig 50 SCOPED)) true
         (fst (targetContainer SCOPED (world (initialState scriptStart))))
         (mockService 7)
         (snd (targetContainer SCOPED (world (initialState scriptStart))))
       = Done ((MockServiceLayer (MockLogger l1)
                  (MockRepositoryLayer (MockLogger l2)), false), w')
       /\ (SCOPED = TRANSIENT ->
           l1 = mockLoggerIdCounter (globals (world (initialState scriptStart)))
           /\ l2 = S l1)
       /\ (SCOPED = SCOPED ->
           l1 = mockLoggerIdCounter (globals (world (initialState scriptStart)))
           /\ l2 = l1)
       /\ (SCOPED = SINGLETON ->
           l2 = l1
           /\ forall el,
                JsMap.get name_eqb logger
                  (rootCache (world (initialState scriptStart))) = Some el ->
                ce_value el = MockLogger l1).
Proof.
  assert (L : 7 < 50) by lia.
  split; [apply generateAwilixConfig_registered|].
  split; [reflexivity|]. split; [exact L|]. split; [intros []|].
  apply (logger_is_shared_unless_transient
           (container (generateAwilixConfig 50 SCOPED)) 50 SCOPED true []
           (world (initialState scriptStart)) 7
           (generateAwilixConfig_registered 50 SCOPED) eq_refl L).
  intros [].
Defined.

(** X14.  Within one container a service is constructed once unless its
    lifetime is TRANSIENT: after a request has resolved a service, a
    resolution of the same name on the same container (the same scope,
    under SCOPED) returns the same object and changes nothing, and with
    the bypass enabled it is counted as a cache hit. *)
Theorem second_resolution_is_served_from_cache (regs : Registrations)
    (N : nat) (lt : Lifetime) (b : bool) (chosen : list nat) (w : World)
    (i : nat) (v : instance) (hit : bool) (w' : World) :
  registered regs lt N ->
  worldOk lt chosen w ->
  i < N ->
  lt <> TRANSIENT ->
  resolveService regs b (fst (targetContainer lt w)) (mockService i)
                 (snd (targetContainer lt w))
  = Done ((v, hit), w') ->
  forall b2,
    resolveService regs b2 (fst (targetContainer lt w)) (mockService i) w'
    = Done ((v, b2), w').
Proof.
  intros R W H NT. destruct lt; [congruence| |];
    cbn [targetContainer Lifetime_eqb fst snd].
  - destruct (resolveService_scoped_entry regs N i b (createScope w) R H
                eq_refl) as (sc & v0 & e & E & G & V).
    rewrite E. intros [= <- _ <-] b2. rewrite <- V.
    apply (resolveService_scoped_cached regs N i b2 _ e R H). exact G.
  - simpl in W.
    destruct (JsMap.get name_eqb (mockService i) (rootCache w)) as [e|] eqn:Cs.
    + rewrite (resolveService_singleton_cached regs N i b w e R H Cs).
      intros [= <- _ <-] b2.
      apply (resolveService_singleton_cached regs N i b2 w e R H Cs).
    + assert (Hnew : ~ In i chosen).
      { intro Hin. apply (si_service _ _ W) in Hin. congruence. }
      assert (Cr : JsMap.get name_eqb (mockRepository i) (rootCache w) = None).
      { destruct (JsMap.get name_eqb (mockRepository i) (rootCache w)) eqn:E;
          [|reflexivity].
        exfalso. apply Hnew. apply (si_repository _ _ W). rewrite E.
        discriminate. }
      destruct (JsMap.get name_eqb logger (rootCache w)) as [el|] eqn:Cl.
      * rewrite (resolveService_singleton_later regs N i b w el R H Cs Cr Cl).
        intros [= <- _ <-] b2.
        match goal with
        | |- resolveService _ _ _ _ ?w1 = Done ((?v1, _), _) =>
            apply (resolveService_singleton_cached regs N i b2 w1
                     {| ce_resolver :=
                          asFunction (mockServiceFn (mockRepository i))
                                     SINGLETON;
                        ce_value := v1 |} R H)
        end.
        cbn [rootCache]. apply (get_set_same _ _ _ name_eqb_eq).
      * rewrite (resolveService_singleton_first regs N i b w R H Cs Cr Cl).
        intros [= <- _ <-] b2.
        match goal with
        | |- resolveService _ _ _ _ ?w1 = Done ((?v1, _), _) =>
            apply (resolveService_singleton_cached regs N i b2 w1
                     {| ce_resolver :=
                          asFunction (mockServiceFn (mockRepository i))
                                     SINGLETON;
                        ce_value := v1 |} R H)
        end.
        cbn [rootCache]. apply (get_set_same _ _ _ name_eqb_eq).
Qed.

Lemma second_resolution_is_served_from_cache_witness :
  registered (container (generateAwilixConfig 50 SCOPED)) SCOPED 50
  /\ worldOk SCOPED [] (world (initialState scriptStart))
  /\ 7 < 50
  /\ SCOPED <> TRANSIENT
  /\ exists v hit w',
       resolveService (container (generateAwilixConfig 50 SCOPED)) true
         (fst (targetContainer SCOPED (world (initialState scriptStart))))
         (mockService 7)
         (snd (targetContainer SCOPED (world (initialState scriptStart))))
       = Done ((v, hit), w')
       /\ forall b2,
            resolveService (container (generateAwilixConfig 50 SCOPED)) b2
              (fst (targetContainer SCOPED (world (initialState scriptStart))))
              (mockService 7) w'
            = Done ((v, b2), w').
Proof.
  assert (L : 7 < 50) by lia.
  split; [apply generateAwilixConfig_registered|].
  split; [reflexivity|]. split; [exact L|]. split; [discriminate|].
  do 3 eexists. split; [vm_compute; reflexivity|].
  eapply (second_resolution_is_served_from_cache
            (container (generateAwilixConfig 50 SCOPED)) 50 SCOPED true []
            (world (initialState scriptStart)) 7 _ _ _
            (generateAwilixConfig_registered 50 SCOPED) eq_refl L).
  - discriminate.
  - vm_compute. reflexivity.
Defined.
